(** * Scope guards of the backup/restore pipeline (package hostinger)

    Shallow embedding of
      - [SymlinkScopeNodeFilter]      (src/hostinger/restorer_filter.go, lines 16-73)
      - [RejectSymlinksOutsideScope]  (src/hostinger/restorer_filter.go, lines 88-113)
    together with the pieces of Go's [strings], [path/filepath] and [os]
    packages they call (Unix flavour), and the device-boundary registry
    exercised by [TestDeviceMap] (src/internal/archiver/exclude_test.go). *)

From stdpp Require Import base strings list gmap fin_maps.
From Stdlib Require Import Ascii String List Bool Arith Lia.
Import ListNotations.

Local Open Scope string_scope.
Local Open Scope list_scope.

(** ** Go strings

    A Go string is a sequence of bytes; [string] (a list of [ascii]) has the
    same shape. *)

Module GoStrings.

(** [strings.HasPrefix(s, prefix)]: [s] begins with [prefix]. *)
Definition HasPrefix (s prefix : string) : bool := String.prefix prefix s.

(** [strings.Join(elems, sep)]. *)
Fixpoint Join (elems : list string) (sep : string) : string :=
  match elems with
  | [] => EmptyString
  | [e] => e
  | e :: rest => e +:+ sep +:+ Join rest sep
  end.

End GoStrings.

(** ** path/filepath on Unix

    The separator is ['/'], there are no volume names. *)

Module Filepath.
Import GoStrings.

Definition Separator : ascii := "/"%char.

Definition IsPathSeparator (c : ascii) : bool := Ascii.eqb c Separator.

(** [IsAbs]: on Unix, [strings.HasPrefix(path, "/")]. *)
Definition IsAbs (path : string) : bool := HasPrefix path "/".

(** The elements of a path: the maximal separator-free runs between
    separators (empty runs included). *)
Fixpoint splitSep (path : string) : list string :=
  match path with
  | EmptyString => [EmptyString]
  | String c rest =>
      if IsPathSeparator c then EmptyString :: splitSep rest
      else match splitSep rest with
           | e :: es => String c e :: es
           | [] => [String c EmptyString]
           end
  end.

(** [out.w > dotdot] in [Clean]: the output buffer holds an element that a
    [..] may remove.  [out] is the stack of elements written so far, last
    written first; [..] elements are only ever written below all others. *)
Definition canBacktrack (out : list string) : bool :=
  match out with
  | top :: _ => negb (String.eqb top "..")
  | [] => false
  end.

(** One iteration of the element loop of [Clean]. *)
Definition cleanElem (rooted : bool) (out : list string) (e : string)
  : list string :=
  if String.eqb e EmptyString then out      (* empty path element *)
  else if String.eqb e "." then out         (* . element *)
  else if String.eqb e ".." then            (* .. element *)
    if canBacktrack out then tl out         (* can backtrack *)
    else if negb rooted then ".." :: out    (* not rooted: append .. *)
    else out
  else e :: out.                            (* real path element *)

(** [filepath.Clean]. *)
Definition Clean (path : string) : string :=
  if String.eqb path EmptyString then "."
  else
    let rooted := IsAbs path in
    let out := fold_left (cleanElem rooted) (splitSep path) [] in
    let body := Join (rev out) "/" in
    if rooted then "/" +:+ body
    else if String.eqb body EmptyString then "." else body.

(** [filepath.Join(elem...)]: cleans the elements from the first non-empty
    one on, joined by the separator. *)
Fixpoint Join (elem : list string) : string :=
  match elem with
  | [] => EmptyString
  | e :: rest =>
      if String.eqb e EmptyString then Join rest
      else Clean (GoStrings.Join elem "/")
  end.

Fixpoint hasSep (path : string) : bool :=
  match path with
  | EmptyString => false
  | String c rest => IsPathSeparator c || hasSep rest
  end.

(** [path[:i+1]] for [i] the index of the last separator (empty when there
    is none). *)
Fixpoint uptoLastSep (path : string) : string :=
  match path with
  | EmptyString => EmptyString
  | String c rest =>
      if hasSep path then String c (uptoLastSep rest) else EmptyString
  end.

(** [path[i+1:]] for [i] the index of the last separator (all of [path]
    when there is none). *)
Fixpoint afterLastSep (path : string) : string :=
  match path with
  | EmptyString => EmptyString
  | String _ rest => if hasSep path then afterLastSep rest else path
  end.

(** The loop of [Base] that strips trailing separators. *)
Fixpoint trimRightSep (path : string) : string :=
  match path with
  | EmptyString => EmptyString
  | String c rest =>
      let t := trimRightSep rest in
      if IsPathSeparator c && String.eqb t EmptyString then EmptyString
      else String c t
  end.

(** [filepath.Dir]. *)
Definition Dir (path : string) : string := Clean (uptoLastSep path).

(** [filepath.Base]. *)
Definition Base (path : string) : string :=
  if String.eqb path EmptyString then "."
  else
    let path := afterLastSep (trimRightSep path) in
    if String.eqb path EmptyString then "/" else path.

End Filepath.

(** ** The operating system as seen by the guards

    The guards read the file system through [fs.Lstat] and
    [filepath.EvalSymlinks] only; a file system is the pair of answers to
    these two calls. *)

Module OS.

Inductive Error : Type :=
| ErrNotExist      (* no such file or directory *)
| ErrPermission    (* permission denied *)
| ErrOther.        (* any other failure, e.g. too many links *)

(** [os.IsNotExist]. *)
Definition IsNotExist (err : Error) : bool :=
  match err with
  | ErrNotExist => true
  | _ => false
  end.

(** A Go result pair [(v, err)]. *)
Inductive result (A : Type) : Type :=
| Ok (v : A)
| Err (err : Error).
Arguments Ok {A} v.
Arguments Err {A} err.

Record FileSystem : Type := {
  Lstat : string -> result unit;          (* the FileInfo is not inspected *)
  EvalSymlinks : string -> result string
}.

End OS.

(** ** Diagnostics: [debug.Log(format, args...)] appends one record. *)

Module Debug.

Record Record_ : Type := Log { format : string; args : list string }.

Definition Trace : Type := list Record_.

End Debug.

(** ** restic nodes (the fields the filter reads). *)

Module Restic.

Inductive NodeType : Type :=
| NodeTypeFile | NodeTypeDir | NodeTypeSymlink | NodeTypeDev
| NodeTypeCharDev | NodeTypeFifo | NodeTypeSocket | NodeTypeIrregular
| NodeTypeInvalid.

Definition NodeType_eqb (a b : NodeType) : bool :=
  match a, b with
  | NodeTypeFile, NodeTypeFile | NodeTypeDir, NodeTypeDir
  | NodeTypeSymlink, NodeTypeSymlink | NodeTypeDev, NodeTypeDev
  | NodeTypeCharDev, NodeTypeCharDev | NodeTypeFifo, NodeTypeFifo
  | NodeTypeSocket, NodeTypeSocket | NodeTypeIrregular, NodeTypeIrregular
  | NodeTypeInvalid, NodeTypeInvalid => true
  | _, _ => false
  end.

Record Node : Type := { Type_ : NodeType; LinkTarget : string }.

End Restic.

(** ** Package hostinger *)

Module Hostinger.
Import GoStrings OS Debug Restic.

(** Every function returns its Go result together with the diagnostics it
    emitted, in order. *)

(** [type NodeFilterFn func(item string, node *restic.Node) bool], run
    against a file system. *)
Definition NodeFilterFn : Type :=
  FileSystem -> string -> Node -> bool * Trace.

(** Outcome of lines 18-35 of [SymlinkScopeNodeFilter]: either the closure
    has returned [false] ([Rejected]), or control reaches line 53 with the
    variable [dstdir] holding the given value ([Proceed]). *)
Inductive DstDir : Type :=
| Rejected (log : Trace)
| Proceed (dstdir : string).

(** Lines 18-35. *)
Definition evalDstDir (fsys : FileSystem) (scope item : string) : DstDir :=
  let dstdir := Filepath.Dir item in
  if match Lstat fsys dstdir with
     | Ok _ => true                          (* err == nil *)
     | Err err => negb (IsNotExist err)      (* !os.IsNotExist(err) *)
     end
  then
    match EvalSymlinks fsys dstdir with
    | Err _ => Rejected []
    | Ok evaldstdir =>
        if negb (String.eqb evaldstdir dstdir) then
          if negb (HasPrefix evaldstdir scope) && negb (HasPrefix scope evaldstdir)
          then Rejected [Log "destination dir %s is a outside scope %s"
                             [evaldstdir; scope]]
          else Proceed evaldstdir
        else Proceed evaldstdir
    end
  else Proceed dstdir.

(** The absolute form of a symlink's target, lines 54-57. *)
Definition symlinkTarget (dstdir : string) (node : Node) : string :=
  let target := Filepath.Clean (LinkTarget node) in
  if negb (Filepath.IsAbs target) then Filepath.Join [dstdir; target]
  else target.

(** The candidate location of a non-symlink node, line 64. *)
Definition itemTarget (dstdir item : string) : string :=
  Filepath.Join [dstdir; Filepath.Base item].

(** Lines 53-71, with [dstdir] as left by lines 18-35. *)
Definition checkTarget (scope dstdir item : string) (node : Node)
  : bool * Trace :=
  if NodeType_eqb (Type_ node) NodeTypeSymlink then
    let target := symlinkTarget dstdir node in
    if negb (HasPrefix target scope) then
      (false, [Log "item %s is a symlink to %s which is outside of scope %s"
                   [item; target; scope]])
    else (true, [])
  else
    let target := itemTarget dstdir item in
    if negb (HasPrefix target scope) && negb (HasPrefix scope target) then
      (false, [Log "item %s leads to %s which is outside of scope %s"
                   [item; target; scope]])
    else (true, []).

(** [func SymlinkScopeNodeFilter(scope string) NodeFilterFn]. *)
Definition SymlinkScopeNodeFilter (scope : string) : NodeFilterFn :=
  fun fsys item node =>
    match evalDstDir fsys scope item with
    | Rejected log => (false, log)
    | Proceed dstdir => checkTarget scope dstdir item node
    end.

(** [archiver.RejectFunc], run against a file system.  The file info and
    the [fs.FS] handle passed by the walker are not read by the guard. *)
Definition RejectFunc : Type := FileSystem -> string -> bool * Trace.

(** [filepath.Abs] on Unix: an absolute path is cleaned, any other is joined
    to the working directory, unless [os.Getwd] fails. *)
Definition Abs (getwd : result string) (path : string) : result string :=
  if Filepath.IsAbs path then Ok (Filepath.Clean path)
  else match getwd with
       | Err err => Err err
       | Ok wd => Ok (Filepath.Join [wd; path])
       end.

(** The closure returned at lines 98-112. *)
Definition rejectFn (scopePath : string) : RejectFunc :=
  fun fsys path =>
    match EvalSymlinks fsys path with
    | Err _ =>
        (* reject symlink if we cannot determine the target *)
        (true, [Log "could not eval symlinks: %s" [path]])
    | Ok target =>
        if negb (HasPrefix target scopePath) then
          (true, [Log "eval path of %s (%s) is outside of scope: %s"
                      [path; target; scopePath]])
        else (false, [])
    end.

(** [func RejectSymlinksOutsideScope(scopePath string)
          (archiver.RejectFunc, error)];
    [getwd] is what [os.Getwd] answers at construction time. *)
Definition RejectSymlinksOutsideScope (getwd : result string)
    (scopePath : string) : result RejectFunc :=
  if negb (Filepath.IsAbs scopePath) then
    match Abs getwd scopePath with
    | Err err => Err err
    | Ok scopePath => Ok (rejectFn scopePath)
    end
  else Ok (rejectFn scopePath).

(** The decision alone / the diagnostics alone. *)
Definition allowed (r : bool * Trace) : bool := fst r.
Definition excluded (r : bool * Trace) : bool := fst r.
Definition emitted (r : bool * Trace) : Trace := snd r.

(** Bidirectional prefix compatibility of the data model (the test of
    lines 28 and 65). *)
Definition compatible (a b : string) : bool :=
  HasPrefix a b || HasPrefix b a.

End Hostinger.

(** ** Package archiver: the device-boundary registry *)

Module Archiver.
Import GoStrings.

(** Modelled from the spec: the type [deviceMap] and its method [IsAllowed]
    are declared in internal/archiver, of which only the test
    [TestDeviceMap] is at hand.  The registry maps a registered directory to
    the device id expected below it; the test calls
    [res, err := deviceMap.IsAllowed(item, deviceID, fs)]. *)
Abbreviation deviceMap := (gmap string N).

(** Modelled from the spec: one step of the search for the longest
    registered key that is a string prefix of [item]; [best] is the longest
    match so far. *)
Definition longerMatch (item : string) (entry : string * N)
    (best : option (string * N)) : option (string * N) :=
  if HasPrefix item entry.1 then
    match best with
    | Some (dir, _) =>
        if Nat.ltb (String.length dir) (String.length entry.1) then Some entry
      else best
    | None => Some entry
    end
  else best.

(** Modelled from the spec: "find the longest registered ancestor path of
    itemPath (string-prefix match over registered keys, picking the most
    specific/longest match)". *)
Definition longestAncestor (m : deviceMap) (item : string)
    : option (string * N) :=
  foldr (longerMatch item) None (map_to_list m).

(** Modelled from the spec: "compare itemDeviceID to the device id recorded
    at that ancestor: allowed iff equal".  [None] is the error returned when
    no registered key matches, which the spec leaves to the caller. *)
Definition IsAllowed (m : deviceMap) (item : string) (deviceID : N)
    : option bool :=
  match longestAncestor m item with
  | Some (_, allowedID) => Some (N.eqb allowedID deviceID)
  | None => None
  end.

(** The registry of [TestDeviceMap]. *)
Definition testDeviceMap : deviceMap :=
  <["/" := 1%N]> (<["/usr/local" := 5%N]> ∅).

End Archiver.

(** ** Path containment in the sense of the data model

    The scope root is a directory, and a path lies inside it when its
    sequence of segments extends that of the root.  These definitions follow
    the spec's wording; the guards do not call them. *)

Module Containment.

(** The segments of a path: its non-empty elements. *)
Definition segments (path : string) : list string :=
  List.filter (fun e => negb (String.eqb e EmptyString))
    (Filepath.splitSep path).

Fixpoint isPrefixSeq (a b : list string) : bool :=
  match a, b with
  | [], _ => true
  | x :: a', y :: b' => String.eqb x y && isPrefixSeq a' b'
  | _ :: _, [] => false
  end.

(** [root] is [path] or one of its ancestors. *)
Definition inside (root path : string) : bool :=
  isPrefixSeq (segments root) (segments path).

(** [root] is a proper ancestor of [path]. *)
Definition strictlyInside (root path : string) : bool :=
  inside root path
  && Nat.ltb (List.length (segments root)) (List.length (segments path)).

Definition outside (root path : string) : bool := negb (inside root path).

(** The canonical spelling of an absolute path with the given segments. *)
Definition render (segs : list string) : string :=
  "/" +:+ GoStrings.Join segs "/".

(** An absolute path in canonical spelling, as [EvalSymlinks] returns. *)
Definition canonical (path : string) : bool :=
  String.eqb path (render (segments path)).

End Containment.

(** ** Shapes of paths

    Paths written as [/s1/.../sn] with ordinary segments, on which the
    functions of [path/filepath] act by adding and removing segments. *)

Module PathShape.

(** A real path element in the sense of [Clean]: not empty, not [.], not
    [..], and free of separators. *)
Definition plainElem (e : string) : bool :=
  negb (String.eqb e EmptyString) && negb (String.eqb e ".")
  && negb (String.eqb e "..") && negb (Filepath.hasSep e).

Definition plainSegs (segs : list string) : bool := forallb plainElem segs.

(** Paths all of whose elements are empty or plain: [Clean] only has to
    drop the empty ones. *)
Definition tidy (p : string) : bool :=
  forallb (fun e => String.eqb e EmptyString || plainElem e)
          (Filepath.splitSep p).

End PathShape.

(** ** Helpers of the test files *)

Module TestHelpers.
Import GoStrings.

(** [filepath.FromSlash]: the identity where the separator is the slash. *)
Definition FromSlash (path : string) : string := path.

(** [s[n:]]. *)
Fixpoint dropBytes (n : nat) (s : string) : string :=
  match n, s with
  | O, _ => s
  | S _, EmptyString => EmptyString
  | S n', String _ rest => dropBytes n' rest
  end.

(** [strings.TrimPrefix(s, prefix)]. *)
Definition TrimPrefix (s prefix : string) : string :=
  if HasPrefix s prefix then dropBytes (String.length prefix) s else s.

(** [joinFn] of [TestRejectSymlinksOutsideScopeExcludesBySymlinkScope] and
    [TestIsExcludedBySymlinkScope]: joins path elements without cleaning
    them, so that relative targets stay relative. *)
Definition joinFn (elem : list string) : string :=
  let sep := String Filepath.Separator EmptyString in
  let res :=
    fold_left (fun res e => res +:+ (sep +:+ FromSlash e)) elem EmptyString in
  TrimPrefix res sep.

End TestHelpers.

(** ** File systems used in the examples *)

Module Fixtures.
Import OS Restic.

Fixpoint assoc {A : Type} (tbl : list (string * A)) (dflt : A) (path : string)
    : A :=
  match tbl with
  | [] => dflt
  | (p, v) :: rest => if String.eqb p path then v else assoc rest dflt path
  end.

(** A file system given by its tables; unlisted paths do not exist. *)
Definition mkFS (lstat : list (string * result unit))
    (eval : list (string * result string)) : FileSystem :=
  {| Lstat := assoc lstat (Err ErrNotExist);
     EvalSymlinks := assoc eval (Err ErrNotExist) |}.

(** Nothing exists. *)
Definition emptyFS : FileSystem := mkFS [] [].

(** [/restore] is a plain directory, [/restore/link] a symlink to [/etc],
    [/restore/dangling] a symlink to a missing file, [/restore/sub] a symlink
    to [/restore/real]. *)
Definition restoreFS : FileSystem :=
  mkFS [("/restore", Ok tt); ("/restore/link", Ok tt);
        ("/restore/dangling", Ok tt); ("/restore/sub", Ok tt);
        ("/restore/real", Ok tt); ("/etc", Ok tt)]
       [("/restore", Ok "/restore"); ("/restore/link", Ok "/etc");
        ("/restore/dangling", Err ErrNotExist);
        ("/restore/sub", Ok "/restore/real");
        ("/restore/real", Ok "/restore/real"); ("/etc", Ok "/etc")].

(** The tree of [TestRejectSymlinksOutsideScopeExcludesBySymlinkScope] under
    the temporary directory [/tmp/t], with a sibling [/tmp/t/foodir2]. *)
Definition backupFS : FileSystem :=
  mkFS [("/tmp/t/123", Ok tt); ("/tmp/t/1234", Ok tt);
        ("/tmp/t/foodir/foo", Ok tt); ("/tmp/t/foodir/insidefoo", Ok tt);
        ("/tmp/t/foodir/outsidefoo4", Ok tt); ("/tmp/t/bardir/insidebar", Ok tt);
        ("/tmp/t/foodir2/x", Ok tt); ("/tmp/t/broken", Ok tt)]
       [("/tmp/t/123", Ok "/tmp/t/foodir/foo"); ("/tmp/t/1234", Ok "/tmp");
        ("/tmp/t/foodir/foo", Ok "/tmp/t/foodir/foo");
        ("/tmp/t/foodir/insidefoo", Ok "/tmp/t/foodir/foosub/underfoo");
        ("/tmp/t/foodir/outsidefoo4", Ok "/tmp/t");
        ("/tmp/t/bardir/insidebar", Ok "/tmp/t/bardir");
        ("/tmp/t/foodir2/x", Ok "/tmp/t/foodir2/x");
        ("/tmp/t/broken", Err ErrNotExist)].

Definition symlinkNode (target : string) : Node :=
  {| Type_ := NodeTypeSymlink; LinkTarget := target |}.

Definition fileNode : Node :=
  {| Type_ := NodeTypeFile; LinkTarget := EmptyString |}.

Definition dirNode : Node :=
  {| Type_ := NodeTypeDir; LinkTarget := EmptyString |}.

(** [/foodir] and [/foodir2] are sibling directories; inside [/foodir],
    [link] is a symlink to [/foodir2] and [y] a symlink to [/foodir2/x]. *)
Definition siblingFS : FileSystem :=
  mkFS [("/foodir", Ok tt); ("/foodir2", Ok tt); ("/foodir2/x", Ok tt);
        ("/foodir/link", Ok tt); ("/foodir/y", Ok tt)]
       [("/foodir", Ok "/foodir"); ("/foodir2", Ok "/foodir2");
        ("/foodir2/x", Ok "/foodir2/x"); ("/foodir/link", Ok "/foodir2");
        ("/foodir/y", Ok "/foodir2/x")].

(** The restore target and scope of [TestRestoreSymlinkScope], the base
    directory of the test environment being [/tmp/env]. *)
Definition restoreBase : string := "/tmp/env/restore0".

Definition restoreScope : string := "/tmp/env/restore0/testdata/subdir1/subdir2".

End Fixtures.

(** Sanity checks of the path model against the tables of Go's own tests
    and documentation. *)
Module FilepathExamples.
Import Filepath.

Example clean_table :
  map Clean ["abc"; "abc//def//ghi"; "abc/def/../../.."; "/../abc";
             "abc/./../def"; "../../abc"; EmptyString; "/"; "abc/"; "./.."; "/.";
             "abc/def/../ghi/../jkl"; "/abc/def/../../.."; "a/../../b"]
  = ["abc"; "abc/def/ghi"; ".."; "/abc";
     "def"; "../../abc"; "."; "/"; "abc"; ".."; "/";
     "abc/jkl"; "/"; "../b"].
Proof. vm_compute. reflexivity. Qed.

Example dir_table :
  map Dir ["/foo/bar/baz.js"; "/foo/bar/baz"; "/foo/bar/baz/"; "/dirty//path///";
           "dev.txt"; "../todo.txt"; ".."; "."; "/"; EmptyString; "/a"]
  = ["/foo/bar"; "/foo/bar"; "/foo/bar/baz"; "/dirty/path";
     "."; ".."; "."; "."; "/"; "."; "/"].
Proof. vm_compute. reflexivity. Qed.

Example base_table :
  map Base ["/foo/bar/baz.js"; "/foo/bar/baz"; "/foo/bar/baz/"; "dev.txt";
            "../todo.txt"; ".."; "."; "/"; EmptyString; "///"; "a/b//"]
  = ["baz.js"; "baz"; "baz"; "dev.txt";
     "todo.txt"; ".."; "."; "/"; "."; "/"; "b"].
Proof. vm_compute. reflexivity. Qed.

Example join_table :
  map Join [["a"; "b"]; ["a"; EmptyString]; [EmptyString; "b"]; ["/"; "a"];
            ["a/"; "b"]; ["/restore/test"; "../target"];
            [EmptyString; EmptyString]; ["/a/b"; ".."]]
  = ["a/b"; "a"; "b"; "/a"; "a/b"; "/restore/target"; EmptyString; "/a"].
Proof. vm_compute. reflexivity. Qed.

End FilepathExamples.

(** The scenarios of the repository's tests, run on the model. *)
Module TestSuite.
Import OS Debug Restic Hostinger Fixtures Archiver.

(** [TestRestoreSymlinkScope]: the expected restoration status of the six
    symlinks, restored into an empty target. *)
Example restore_symlink_scope_table :
  map (fun '(name, target) =>
         allowed (SymlinkScopeNodeFilter restoreScope emptyFS
                    (restoreBase +:+ "/testdata/" +:+ name)
                    (symlinkNode target)))
      [("symlink1", "./..");
       ("subdir1/symlink2", restoreBase +:+ "/testdata/subdir1/../..");
       ("subdir1/symlink3", "/var");
       ("symlink4", restoreBase +:+ "/testdata/testfile1.c");
       ("subdir1/symlink5",
        restoreBase +:+ "/testdata/subdir1/subdir2/testfile3.docx");
       ("symlink6", restoreBase +:+ "/testdata/subdir1/subdir2")]
  = [false; false; false; false; true; true].
Proof. vm_compute. reflexivity. Qed.

(** [TestRejectSymlinksOutsideScopeExcludesBySymlinkScope]: the expected
    inclusion status ([incl]) of the symlinks listed in [backupFS]. *)
Example reject_symlinks_outside_scope_table :
  map (fun path => negb (excluded (rejectFn "/tmp/t/foodir" backupFS path)))
      ["/tmp/t/123"; "/tmp/t/1234"; "/tmp/t/foodir/insidefoo";
       "/tmp/t/foodir/outsidefoo4"; "/tmp/t/bardir/insidebar"]
  = [true; false; true; false; false].
Proof. vm_compute. reflexivity. Qed.

(** [TestDeviceMap]: every row of the table. *)
Example device_map_table :
  map (fun '(item, deviceID) => IsAllowed testDeviceMap item deviceID)
      [("/root", 1%N); ("/usr", 1%N); ("/proc", 2%N); ("/proc/1234", 2%N);
       ("/usr", 3%N); ("/usr/share", 3%N); ("/usr/local", 5%N);
       ("/usr/local/foobar", 5%N); ("/usr/local/foobar/submount", 23%N);
       ("/usr/local/foobar/submount/file", 23%N);
       ("/usr/local/foobar/outhersubmount", 1%N);
       ("/usr/local/foobar/outhersubmount/otherfile", 1%N)]
  = map Some [true; true; false; false; false; false; true; true;
              false; false; false; false].
Proof. vm_compute. reflexivity. Qed.

(** Below the symlink [/restore/link] (to [/etc]) a file whose parent
    directory is on disk is rejected, with its diagnostic; one whose parent
    directory is missing is decided on its path string alone. *)
Example below_symlinked_ancestor :
  SymlinkScopeNodeFilter "/restore" restoreFS "/restore/link/passwd" fileNode
  = (false, [Log "destination dir %s is a outside scope %s" ["/etc"; "/restore"]])
  /\ SymlinkScopeNodeFilter "/restore" restoreFS "/restore/link/deep/x" fileNode
     = (true, []).
Proof. split; vm_compute; reflexivity. Qed.

End TestSuite.

(** * Properties *)

(** ** Facts about [strings.HasPrefix] *)

Section PrefixFacts.
Import GoStrings.

Lemma HasPrefix_nil (s : string) : HasPrefix s EmptyString = true.
Proof. unfold HasPrefix. destruct s; reflexivity. Qed.

Lemma HasPrefix_cons (a b : ascii) (s p : string) :
  HasPrefix (String a s) (String b p) = true <-> a = b /\ HasPrefix s p = true.
Proof.
  unfold HasPrefix. simpl.
  destruct (ascii_dec b a) as [->|Hne]; split.
  - intros H. split; [reflexivity | exact H].
  - intros [_ H]. exact H.
  - discriminate.
  - intros [Heq _]. congruence.
Qed.

Lemma HasPrefix_refl (s : string) : HasPrefix s s = true.
Proof.
  induction s as [|a s IH]; [reflexivity|].
  apply HasPrefix_cons. split; [reflexivity | exact IH].
Qed.

Lemma append_cons (a : ascii) (s r : string) :
  String a s +:+ r = String a (s +:+ r).
Proof. reflexivity. Qed.

Lemma append_assoc (s r t : string) : (s +:+ r) +:+ t = s +:+ (r +:+ t).
Proof.
  induction s as [|a s IH]; [reflexivity|].
  rewrite !append_cons, IH. reflexivity.
Qed.

Lemma HasPrefix_app (p r : string) : HasPrefix (p +:+ r) p = true.
Proof.
  induction p as [|a p IH].
  - apply HasPrefix_nil.
  - rewrite append_cons. apply HasPrefix_cons. split; [reflexivity | exact IH].
Qed.

Lemma HasPrefix_app_inv (s p : string) :
  HasPrefix s p = true -> exists r, s = p +:+ r.
Proof.
  revert s. induction p as [|b p IH]; intros s H.
  - exists s. reflexivity.
  - destruct s as [|a s]; [discriminate H|].
    apply HasPrefix_cons in H as [-> H].
    destruct (IH s H) as [r ->]. exists r. reflexivity.
Qed.

Lemma HasPrefix_trans (s p q : string) :
  HasPrefix s p = true -> HasPrefix p q = true -> HasPrefix s q = true.
Proof.
  intros H1 H2.
  apply HasPrefix_app_inv in H1 as [r1 ->].
  apply HasPrefix_app_inv in H2 as [r2 ->].
  rewrite append_assoc. apply HasPrefix_app.
Qed.

Lemma HasPrefix_app_both (c s p : string) :
  HasPrefix (c +:+ s) (c +:+ p) = HasPrefix s p.
Proof.
  induction c as [|a c IH]; [reflexivity|].
  rewrite !append_cons. unfold HasPrefix in *. simpl.
  destruct (ascii_dec a a) as [_|Hne]; [exact IH | congruence].
Qed.

(** Two prefixes of one string that have the same length are equal. *)
Lemma HasPrefix_same_length (s p q : string) :
  HasPrefix s p = true -> HasPrefix s q = true ->
  String.length p = String.length q -> p = q.
Proof.
  revert p q. induction s as [|a s IH]; intros p q Hp Hq Hlen.
  - destruct p; [|discriminate Hp]. destruct q; [reflexivity | discriminate Hq].
  - destruct p as [|b p], q as [|c q]; try discriminate Hlen; [reflexivity|].
    apply HasPrefix_cons in Hp as [<- Hp].
    apply HasPrefix_cons in Hq as [<- Hq].
    f_equal. apply IH; [assumption..|]. simpl in Hlen. lia.
Qed.

(** Whatever starts with an absolute path is absolute. *)
Lemma IsAbs_of_prefix (target scope : string) :
  Filepath.IsAbs scope = true -> HasPrefix target scope = true ->
  Filepath.IsAbs target = true.
Proof. unfold Filepath.IsAbs. intros Hs Ht. exact (HasPrefix_trans _ _ _ Ht Hs). Qed.

End PrefixFacts.

(** ** The constructor of the backup guard *)

Section BackupGuard.
Import GoStrings OS Debug Hostinger.

(** An absolute scope path is stored as it is given. *)
Lemma guard_of_absolute_scope (getwd : result string) (scopePath : string) :
  Filepath.IsAbs scopePath = true ->
  RejectSymlinksOutsideScope getwd scopePath = Ok (rejectFn scopePath).
Proof. intros Habs. unfold RejectSymlinksOutsideScope. rewrite Habs. reflexivity. Qed.

(** A guard that was built is the closure over some stored scope path. *)
Lemma guard_is_closure (getwd : result string) (scopePath : string)
    (guard : RejectFunc) :
  RejectSymlinksOutsideScope getwd scopePath = Ok guard ->
  exists stored, guard = rejectFn stored.
Proof.
  unfold RejectSymlinksOutsideScope, Abs.
  destruct (Filepath.IsAbs scopePath); simpl.
  - intros [= <-]. eauto.
  - destruct getwd as [wd|err]; [|discriminate].
    intros [= <-]. eauto.
Qed.

(** The decision of the closure, in one equation. *)
Lemma rejectFn_excluded (scopePath : string) (fsys : FileSystem) (path : string) :
  excluded (rejectFn scopePath fsys path)
  = match EvalSymlinks fsys path with
    | Ok target => negb (HasPrefix target scopePath)
    | Err _ => true
    end.
Proof.
  unfold excluded, rejectFn.
  destruct (EvalSymlinks fsys path) as [target|err]; [|reflexivity].
  destruct (HasPrefix target scopePath); reflexivity.
Qed.

End BackupGuard.

(** ** The restore filter *)

Section RestoreFilter.
Import GoStrings OS Debug Restic Hostinger.

Variable scope : string.
Variable fsys : FileSystem.

(** The test of line 21: the ancestor-resolution step runs unless [Lstat]
    reports that the parent directory does not exist. *)
Lemma lstat_gate (dstdir : string) :
  match Lstat fsys dstdir with
  | Ok _ => true
  | Err err => negb (IsNotExist err)
  end = true <-> Lstat fsys dstdir <> Err ErrNotExist.
Proof.
  destruct (Lstat fsys dstdir) as [fi|[]]; simpl; split;
    congruence || (intros H; contradiction H; reflexivity).
Qed.

(** Lines 18-35 when the parent directory is resolved. *)
Lemma evalDstDir_resolved (item evaldstdir : string) :
  Lstat fsys (Filepath.Dir item) <> Err ErrNotExist ->
  EvalSymlinks fsys (Filepath.Dir item) = Ok evaldstdir ->
  evalDstDir fsys scope item
  = if negb (String.eqb evaldstdir (Filepath.Dir item))
       && negb (compatible evaldstdir scope)
    then Rejected [Log "destination dir %s is a outside scope %s"
                       [evaldstdir; scope]]
    else Proceed evaldstdir.
Proof.
  intros Hgate Heval. apply lstat_gate in Hgate.
  unfold evalDstDir, compatible. rewrite Hgate, Heval.
  destruct (String.eqb evaldstdir (Filepath.Dir item)); simpl; [reflexivity|].
  destruct (HasPrefix evaldstdir scope), (HasPrefix scope evaldstdir);
    reflexivity.
Qed.

(** Lines 18-35 when resolution of the parent directory fails. *)
Lemma evalDstDir_failed (item : string) (err : Error) :
  Lstat fsys (Filepath.Dir item) <> Err ErrNotExist ->
  EvalSymlinks fsys (Filepath.Dir item) = Err err ->
  evalDstDir fsys scope item = Rejected [].
Proof.
  intros Hgate Heval. apply lstat_gate in Hgate.
  unfold evalDstDir. rewrite Hgate, Heval. reflexivity.
Qed.

(** Lines 18-35 when the parent directory does not exist. *)
Lemma evalDstDir_missing (item : string) :
  Lstat fsys (Filepath.Dir item) = Err ErrNotExist ->
  evalDstDir fsys scope item = Proceed (Filepath.Dir item).
Proof. intros Hl. unfold evalDstDir. rewrite Hl. reflexivity. Qed.

(** The decision of lines 53-71. *)
Lemma checkTarget_allowed (dstdir item : string) (node : Node) :
  allowed (checkTarget scope dstdir item node)
  = if NodeType_eqb (Type_ node) NodeTypeSymlink
    then HasPrefix (symlinkTarget dstdir node) scope
    else compatible (itemTarget dstdir item) scope.
Proof.
  unfold allowed, checkTarget, compatible.
  destruct (NodeType_eqb (Type_ node) NodeTypeSymlink).
  - destruct (HasPrefix (symlinkTarget dstdir node) scope); reflexivity.
  - destruct (HasPrefix (itemTarget dstdir item) scope),
             (HasPrefix scope (itemTarget dstdir item)); reflexivity.
Qed.

Lemma NodeType_eqb_eq (a b : NodeType) : NodeType_eqb a b = true <-> a = b.
Proof. destruct a, b; simpl; split; congruence. Qed.

Lemma NodeType_eqb_neq (a b : NodeType) : NodeType_eqb a b = false <-> a <> b.
Proof. destruct a, b; simpl; split; congruence. Qed.

(** *** Claims *)

(** C2. For a symlink node, once the ancestor step has left the effective
    destination directory [dstdir], the filter allows the node if and only
    if its link target, cleaned and (when still relative) joined to
    [dstdir], is an absolute path that starts with the scope; the scope
    being absolute as the data model requires.  The test is one-directional:
    a target of which the scope is a proper extension is rejected. *)
Theorem symlink_target_one_directional (item dstdir : string) (node : Node) :
  Filepath.IsAbs scope = true ->
  Type_ node = NodeTypeSymlink ->
  evalDstDir fsys scope item = Proceed dstdir ->
  let cleaned := Filepath.Clean (LinkTarget node) in
  let target :=
    if Filepath.IsAbs cleaned then cleaned
    else Filepath.Join [dstdir; cleaned] in
  allowed (SymlinkScopeNodeFilter scope fsys item node) = true
  <-> Filepath.IsAbs target = true /\ HasPrefix target scope = true.
Proof.
  intros Habs Hty Hdir cleaned target.
  unfold SymlinkScopeNodeFilter. rewrite Hdir, checkTarget_allowed.
  apply NodeType_eqb_eq in Hty. rewrite Hty.
  assert (symlinkTarget dstdir node = target) as ->.
  { unfold symlinkTarget, target, cleaned.
    destruct (Filepath.IsAbs (Filepath.Clean (LinkTarget node))); reflexivity. }
  split.
  - intros H. split; [|exact H]. exact (IsAbs_of_prefix _ _ Habs H).
  - intros [_ H]. exact H.
Qed.

(** C3 (amended). When the parent directory of the item is on disk and
    resolves to [evaldstdir]: if [evaldstdir] differs from the parent and is
    not prefix-compatible with the scope, the item is rejected whatever the
    node is (so every item whose own parent directory is on disk and resolves
    out of scope is rejected, however its own path reads); otherwise the rest
    of the call runs with [evaldstdir] as its destination directory.  Nothing
    is said of items whose parent directory is missing. *)
Theorem ancestor_outside_scope_rejected (item evaldstdir : string) (node : Node) :
  Lstat fsys (Filepath.Dir item) <> Err ErrNotExist ->
  EvalSymlinks fsys (Filepath.Dir item) = Ok evaldstdir ->
  (evaldstdir <> Filepath.Dir item ->
   compatible evaldstdir scope = false ->
   allowed (SymlinkScopeNodeFilter scope fsys item node) = false)
  /\ (evaldstdir = Filepath.Dir item \/ compatible evaldstdir scope = true ->
      SymlinkScopeNodeFilter scope fsys item node
      = checkTarget scope evaldstdir item node).
Proof.
  intros Hgate Heval.
  unfold SymlinkScopeNodeFilter.
  rewrite (evalDstDir_resolved item evaldstdir Hgate Heval).
  split.
  - intros Hne Hcompat.
    apply String.eqb_neq in Hne. rewrite Hne, Hcompat. reflexivity.
  - intros [Heq | Hcompat].
    + apply String.eqb_eq in Heq. rewrite Heq. reflexivity.
    + rewrite Hcompat, andb_false_r. reflexivity.
Qed.

(** C5. For a node that is not a symlink, once the ancestor step has left
    the effective destination directory [dstdir], the filter allows the node
    if and only if [Join(dstdir, Base(item))] and the scope are
    prefix-compatible in either direction; a target equal to the scope is
    allowed. *)
Theorem nonsymlink_target_bidirectional (item dstdir : string) (node : Node) :
  Type_ node <> NodeTypeSymlink ->
  evalDstDir fsys scope item = Proceed dstdir ->
  let target := Filepath.Join [dstdir; Filepath.Base item] in
  (allowed (SymlinkScopeNodeFilter scope fsys item node) = true
   <-> HasPrefix target scope = true \/ HasPrefix scope target = true)
  /\ (target = scope ->
      allowed (SymlinkScopeNodeFilter scope fsys item node) = true).
Proof.
  intros Hty Hdir target.
  unfold SymlinkScopeNodeFilter. rewrite Hdir, checkTarget_allowed.
  apply NodeType_eqb_neq in Hty. rewrite Hty.
  fold target. unfold compatible, itemTarget. fold target.
  split.
  - apply orb_true_iff.
  - intros ->. rewrite HasPrefix_refl. reflexivity.
Qed.

(** C10. When [Lstat] reports that the parent directory of the item does
    not exist, the ancestor-resolution step is skipped: the call is decided
    by lines 53-71 on the unresolved parent path, and no other state of the
    file system enters the decision. *)
Theorem missing_parent_is_syntactic (item : string) (node : Node) :
  Lstat fsys (Filepath.Dir item) = Err ErrNotExist ->
  SymlinkScopeNodeFilter scope fsys item node
  = checkTarget scope (Filepath.Dir item) item node
  /\ forall fsys' : FileSystem,
      Lstat fsys' (Filepath.Dir item) = Err ErrNotExist ->
      SymlinkScopeNodeFilter scope fsys' item node
      = SymlinkScopeNodeFilter scope fsys item node.
Proof.
  intros Hl. unfold SymlinkScopeNodeFilter.
  rewrite (evalDstDir_missing item Hl). split; [reflexivity|].
  intros fsys' Hl'. unfold evalDstDir. rewrite Hl'. reflexivity.
Qed.

End RestoreFilter.

(** ** Both guards: failures, containment, diagnostics *)

Section ScopeGuards.
Import GoStrings OS Debug Restic Hostinger Containment Fixtures.

(** C4. A failed symlink resolution is a rejection, for both guards: the
    backup guard excludes the path when [EvalSymlinks] fails on it, and the
    restore filter disallows the item when [EvalSymlinks] fails on its
    parent directory, the directory being on disk (more generally, [Lstat]
    not reporting it missing).  Both answers are plain booleans; no error is
    handed to the walker. *)
Theorem resolution_failure_is_rejection :
  (forall (getwd : result string) (scopePath : string) (guard : RejectFunc)
          (fsys : FileSystem) (path : string) (err : Error),
      RejectSymlinksOutsideScope getwd scopePath = Ok guard ->
      EvalSymlinks fsys path = Err err ->
      excluded (guard fsys path) = true)
  /\ (forall (scope : string) (fsys : FileSystem) (item : string)
             (node : Node) (err : Error),
      Lstat fsys (Filepath.Dir item) <> Err ErrNotExist ->
      EvalSymlinks fsys (Filepath.Dir item) = Err err ->
      allowed (SymlinkScopeNodeFilter scope fsys item node) = false).
Proof.
  split.
  - intros getwd scopePath guard fsys path err Hguard Heval.
    destruct (guard_is_closure _ _ _ Hguard) as [stored ->].
    rewrite rejectFn_excluded, Heval. reflexivity.
  - intros scope fsys item node err Hgate Heval.
    unfold SymlinkScopeNodeFilter.
    rewrite (evalDstDir_failed scope fsys item err Hgate Heval). reflexivity.
Qed.

(** C7 (as stated, refuted). Bidirectional compatibility does not make the
    backup guard include an entry: with scope [/tmp/t/foodir], the symlink
    [foodir/outsidefoo4] of the test suite resolves to [/tmp/t], a prefix
    of the scope, and is excluded. *)
Lemma bidirectional_inclusion_fails :
  ~ (forall (getwd : result string) (scopeRoot : string) (guard : RejectFunc)
            (fsys : FileSystem) (path target : string),
        RejectSymlinksOutsideScope getwd scopeRoot = Ok guard ->
        EvalSymlinks fsys path = Ok target ->
        HasPrefix scopeRoot target = true \/ HasPrefix target scopeRoot = true ->
        excluded (guard fsys path) = false).
Proof.
  intros H.
  specialize (H (Ok "/") "/tmp/t/foodir" (rejectFn "/tmp/t/foodir") backupFS
                "/tmp/t/foodir/outsidefoo4" "/tmp/t"
                eq_refl eq_refl (or_introl eq_refl)).
  vm_compute in H. discriminate H.
Qed.

(** C7 (amended). With an absolute scope root, an entry whose resolved path
    starts with the scope root is included by the backup guard. *)
Theorem scope_prefix_is_included
    (getwd : result string) (scopeRoot : string) (guard : RejectFunc)
    (fsys : FileSystem) (path target : string) :
  Filepath.IsAbs scopeRoot = true ->
  RejectSymlinksOutsideScope getwd scopeRoot = Ok guard ->
  EvalSymlinks fsys path = Ok target ->
  HasPrefix target scopeRoot = true ->
  excluded (guard fsys path) = false.
Proof.
  intros Habs Hguard Heval Hpre.
  rewrite (guard_of_absolute_scope getwd scopeRoot Habs) in Hguard.
  injection Hguard as <-.
  rewrite rejectFn_excluded, Heval, Hpre. reflexivity.
Qed.

(** C3 (as stated, refuted). Not every descendant of a symlinked ancestor
    that resolves out of scope is rejected: with scope [/restore] and
    [/restore/link] a symlink to [/etc], the parent directory of
    [/restore/link/deep/x] is not on disk, the ancestor step of line 21 is
    skipped, and the file is allowed on the strength of its path string. *)
Lemma deep_descendant_not_rejected :
  ~ (forall (scope : string) (fsys : FileSystem)
            (ancestor resolved item : string) (node : Node),
        Lstat fsys ancestor = Ok tt ->
        EvalSymlinks fsys ancestor = Ok resolved ->
        resolved <> ancestor ->
        compatible resolved scope = false ->
        strictlyInside ancestor item = true ->
        allowed (SymlinkScopeNodeFilter scope fsys item node) = false).
Proof.
  intros H.
  assert (Hne : "/etc" <> "/restore/link") by discriminate.
  specialize (H "/restore" restoreFS "/restore/link" "/etc"
                "/restore/link/deep/x" fileNode
                eq_refl eq_refl Hne eq_refl eq_refl).
  vm_compute in H. discriminate H.
Qed.

(** C8. Containment is a test on raw strings: with scope [/foodir], the
    path [/foodir2/x], which lies outside the directory [/foodir], is
    treated as contained.  The backup guard includes every entry resolving
    to it; the restore filter allows every symlink pointing to it, every
    non-symlink item named [x] whose destination directory is [/foodir2],
    and accepts [/foodir2] as the resolved form of a parent directory. *)
Theorem raw_prefix_false_containment :
  outside "/foodir" "/foodir2/x" = true
  /\ (forall (getwd : result string) (guard : RejectFunc) (fsys : FileSystem)
             (path : string),
        RejectSymlinksOutsideScope getwd "/foodir" = Ok guard ->
        EvalSymlinks fsys path = Ok "/foodir2/x" ->
        guard fsys path = (false, []))
  /\ (forall (fsys : FileSystem) (item dstdir : string),
        evalDstDir fsys "/foodir" item = Proceed dstdir ->
        SymlinkScopeNodeFilter "/foodir" fsys item (symlinkNode "/foodir2/x")
        = (true, []))
  /\ (forall (fsys : FileSystem) (item : string) (node : Node),
        Type_ node <> NodeTypeSymlink ->
        Filepath.Base item = "x" ->
        Lstat fsys (Filepath.Dir item) <> Err ErrNotExist ->
        EvalSymlinks fsys (Filepath.Dir item) = Ok "/foodir2" ->
        SymlinkScopeNodeFilter "/foodir" fsys item node = (true, [])).
Proof.
  split; [reflexivity|]. split; [|split].
  - intros getwd guard fsys path Hguard Heval.
    rewrite (guard_of_absolute_scope getwd "/foodir" eq_refl) in Hguard.
    injection Hguard as <-.
    unfold rejectFn. rewrite Heval. reflexivity.
  - intros fsys item dstdir Hdir.
    unfold SymlinkScopeNodeFilter. rewrite Hdir. reflexivity.
  - intros fsys item node Hty Hbase Hgate Heval.
    unfold SymlinkScopeNodeFilter.
    rewrite (evalDstDir_resolved "/foodir" fsys item "/foodir2" Hgate Heval).
    replace (compatible "/foodir2" "/foodir") with true by reflexivity.
    rewrite andb_false_r.
    unfold checkTarget, itemTarget.
    apply NodeType_eqb_neq in Hty. rewrite Hty, Hbase. reflexivity.
Qed.

End ScopeGuards.

(** ** String prefixes and containment of canonical paths *)

Section CanonicalPaths.
Import GoStrings OS Debug Restic Hostinger Containment Fixtures.

Lemma isPrefixSeq_app (a b : list string) :
  isPrefixSeq a b = true -> exists c, b = a ++ c.
Proof.
  revert b. induction a as [|x a IH]; intros b H.
  - exists b. reflexivity.
  - destruct b as [|y b]; [discriminate H|].
    simpl in H. apply andb_true_iff in H as [Hxy Hrest].
    apply String.eqb_eq in Hxy as ->.
    destruct (IH b Hrest) as [c ->]. exists c. reflexivity.
Qed.

Lemma Join_cons2 (x y : string) (rest : list string) (sep : string) :
  Join (x :: y :: rest) sep = x +:+ sep +:+ Join (y :: rest) sep.
Proof. reflexivity. Qed.

(** Joining more segments extends the joined string. *)
Lemma Join_app_prefix (a c : list string) :
  HasPrefix (Join (a ++ c) "/") (Join a "/") = true.
Proof.
  induction a as [|x a IH].
  - apply HasPrefix_nil.
  - destruct a as [|y a].
    + destruct c as [|z c]; [apply HasPrefix_refl|].
      change ([x] ++ z :: c) with (x :: z :: c).
      rewrite Join_cons2. apply HasPrefix_app.
    + change ((x :: y :: a) ++ c) with (x :: y :: (a ++ c)).
      rewrite !Join_cons2, !HasPrefix_app_both. exact IH.
Qed.

Lemma canonical_IsAbs (path : string) :
  canonical path = true -> Filepath.IsAbs path = true.
Proof.
  unfold canonical. intros H. apply String.eqb_eq in H. rewrite H.
  unfold render, Filepath.IsAbs. apply HasPrefix_app.
Qed.

(** For canonical paths, containment by segments implies containment by
    string prefix. *)
Lemma inside_HasPrefix (root path : string) :
  canonical root = true -> canonical path = true ->
  inside root path = true -> HasPrefix path root = true.
Proof.
  unfold canonical, inside. intros Hr Hp Hin.
  apply String.eqb_eq in Hr, Hp. rewrite Hr, Hp.
  destruct (isPrefixSeq_app _ _ Hin) as [c ->].
  unfold render. rewrite HasPrefix_app_both. apply Join_app_prefix.
Qed.

(** The half of C1 that the code meets: an entry whose resolved path lies
    strictly inside the scope root is included, without diagnostics. *)
Lemma strictly_inside_is_included
    (getwd : result string) (scopeRoot : string) (guard : RejectFunc)
    (fsys : FileSystem) (path target : string) :
  canonical scopeRoot = true -> canonical target = true ->
  RejectSymlinksOutsideScope getwd scopeRoot = Ok guard ->
  EvalSymlinks fsys path = Ok target ->
  strictlyInside scopeRoot target = true ->
  guard fsys path = (false, []).
Proof.
  intros Hr Ht Hguard Heval Hin.
  rewrite (guard_of_absolute_scope getwd scopeRoot (canonical_IsAbs _ Hr))
    in Hguard.
  injection Hguard as <-.
  unfold strictlyInside in Hin. apply andb_true_iff in Hin as [Hin _].
  unfold rejectFn. rewrite Heval, (inside_HasPrefix _ _ Hr Ht Hin).
  reflexivity.
Qed.

(** C1 (the code departs from the claim). In the tree of the test suite
    with a sibling directory [foodir2] next to the scope root
    [/tmp/t/foodir], the file [/tmp/t/foodir2/x] resolves to itself, which
    lies outside the scope root, and yet the backup guard includes it. *)
Theorem outside_path_is_included :
  canonical "/tmp/t/foodir" = true
  /\ EvalSymlinks backupFS "/tmp/t/foodir2/x" = Ok "/tmp/t/foodir2/x"
  /\ outside "/tmp/t/foodir" "/tmp/t/foodir2/x" = true
  /\ exists guard : RejectFunc,
      RejectSymlinksOutsideScope (Ok "/") "/tmp/t/foodir" = Ok guard
      /\ guard backupFS "/tmp/t/foodir2/x" = (false, []).
Proof.
  repeat split; try reflexivity.
  exists (rejectFn "/tmp/t/foodir"). split; reflexivity.
Qed.

End CanonicalPaths.

(** ** Diagnostics *)

Section Diagnostics.
Import GoStrings OS Debug Restic Hostinger Fixtures.

(** The backup guard emits one record when it excludes and none when it
    includes. *)
Lemma rejectFn_diagnostics (scopePath : string) (fsys : FileSystem)
    (path : string) :
  List.length (emitted (rejectFn scopePath fsys path))
  = if excluded (rejectFn scopePath fsys path) then 1 else 0.
Proof.
  unfold emitted, excluded, rejectFn.
  destruct (EvalSymlinks fsys path) as [target|err]; [|reflexivity].
  destruct (HasPrefix target scopePath); reflexivity.
Qed.

Lemma checkTarget_diagnostics (scope dstdir item : string) (node : Node) :
  List.length (emitted (checkTarget scope dstdir item node))
  = if allowed (checkTarget scope dstdir item node) then 0 else 1.
Proof.
  unfold emitted, allowed, checkTarget.
  destruct (NodeType_eqb (Type_ node) NodeTypeSymlink).
  - destruct (HasPrefix (symlinkTarget dstdir node) scope); reflexivity.
  - destruct (HasPrefix (itemTarget dstdir item) scope),
             (HasPrefix scope (itemTarget dstdir item)); reflexivity.
Qed.

(** The restore filter emits nothing when it allows, and one record when it
    rejects, except on the path of lines 23-25 (a parent directory that
    cannot be resolved), which rejects silently. *)
Lemma filter_diagnostics (scope : string) (fsys : FileSystem) (item : string)
    (node : Node) :
  let r := SymlinkScopeNodeFilter scope fsys item node in
  (allowed r = true -> emitted r = [])
  /\ (allowed r = false ->
      evalDstDir fsys scope item <> Rejected [] ->
      List.length (emitted r) = 1)
  /\ (evalDstDir fsys scope item = Rejected [] -> r = (false, [])).
Proof.
  cbv zeta. unfold SymlinkScopeNodeFilter.
  pose proof (checkTarget_diagnostics scope) as Hck.
  destruct (evalDstDir fsys scope item) as [log|dstdir] eqn:Hdir.
  - split; [discriminate|]. split.
    + intros _ Hne. revert Hdir. unfold evalDstDir.
      repeat match goal with
             | |- context [match ?x with _ => _ end] => destruct x
             end; intros [= <-]; try reflexivity; contradiction Hne; reflexivity.
    + intros [= ->]. reflexivity.
  - specialize (Hck dstdir item node). split; [|split].
    + intros Ha. rewrite Ha in Hck.
      destruct (emitted (checkTarget scope dstdir item node)); [reflexivity|].
      discriminate Hck.
    + intros Ha _. rewrite Ha in Hck. exact Hck.
    + discriminate.
Qed.

(** C9 (the code departs from the claim). The item
    [/restore/dangling/passwd] has a parent directory that is on disk but
    cannot be resolved (a dangling symlink): the restore filter rejects it
    and emits no diagnostic record, whereas the backup guard emits one for
    the same kind of failure. *)
Theorem silent_rejection :
  Lstat restoreFS (Filepath.Dir "/restore/dangling/passwd") = Ok tt
  /\ EvalSymlinks restoreFS (Filepath.Dir "/restore/dangling/passwd")
     = Err ErrNotExist
  /\ SymlinkScopeNodeFilter "/restore" restoreFS "/restore/dangling/passwd"
       fileNode = (false, [])
  /\ rejectFn "/restore" restoreFS "/restore/dangling"
     = (true, [Log "could not eval symlinks: %s" ["/restore/dangling"]]).
Proof. repeat split. Qed.

End Diagnostics.

(** ** The device-boundary registry *)

Section DeviceBoundary.
Import GoStrings Archiver.

(** What the search returns on a list of entries: a matching entry of
    maximal key length, or nothing when no key matches. *)
Lemma longerMatch_foldr (item : string) (entries : list (string * N)) :
  match foldr (longerMatch item) None entries with
  | Some (dir, id) =>
      (dir, id) ∈ entries /\ HasPrefix item dir = true
      /\ forall dir' id', (dir', id') ∈ entries -> HasPrefix item dir' = true ->
           (String.length dir' <= String.length dir)%nat
  | None =>
      forall dir' id', (dir', id') ∈ entries -> HasPrefix item dir' = false
  end.
Proof.
  induction entries as [|[k v] entries IH]; simpl.
  - intros dir' id' Hin. inversion Hin.
  - unfold longerMatch at 1. simpl.
    destruct (HasPrefix item k) eqn:Hk.
    + destruct (foldr (longerMatch item) None entries) as [[dir id]|].
      * destruct IH as (Hin & Hpre & Hmax).
        destruct (Nat.ltb_spec (String.length dir) (String.length k)) as [Hlt|Hge].
        -- split; [left|]. split; [exact Hk|].
           intros dir' id' Hin' Hpre'.
           apply elem_of_cons in Hin' as [[= -> ->]|Hin']; [lia|].
           specialize (Hmax dir' id' Hin' Hpre'). lia.
        -- split; [right; exact Hin|]. split; [exact Hpre|].
           intros dir' id' Hin' Hpre'.
           apply elem_of_cons in Hin' as [[= -> ->]|Hin']; [lia|].
           exact (Hmax dir' id' Hin' Hpre').
      * split; [left|]. split; [exact Hk|].
        intros dir' id' Hin' Hpre'.
        apply elem_of_cons in Hin' as [[= -> ->]|Hin']; [lia|].
        rewrite (IH dir' id' Hin') in Hpre'. discriminate Hpre'.
    + destruct (foldr (longerMatch item) None entries) as [[dir id]|].
      * destruct IH as (Hin & Hpre & Hmax).
        split; [right; exact Hin|]. split; [exact Hpre|].
        intros dir' id' Hin' Hpre'.
        apply elem_of_cons in Hin' as [[= -> ->]|Hin']; [congruence|].
        exact (Hmax dir' id' Hin' Hpre').
      * intros dir' id' Hin'.
        apply elem_of_cons in Hin' as [[= -> ->]|Hin']; [exact Hk|].
        exact (IH dir' id' Hin').
Qed.

(** The search finds the longest registered prefix of the item. *)
Lemma longestAncestor_spec (m : gmap string N) (item dir : string) (id : N) :
  m !! dir = Some id ->
  HasPrefix item dir = true ->
  (forall dir', is_Some (m !! dir') -> HasPrefix item dir' = true ->
     (String.length dir' <= String.length dir)%nat) ->
  longestAncestor m item = Some (dir, id).
Proof.
  intros Hm Hpre Hmax. unfold longestAncestor.
  pose proof (longerMatch_foldr item (map_to_list m)) as Hspec.
  destruct (foldr (longerMatch item) None (map_to_list m)) as [[d i]|].
  - destruct Hspec as (Hin & Hpre' & Hmax').
    apply elem_of_map_to_list in Hin.
    assert (d = dir) as ->.
    { apply (HasPrefix_same_length item); [assumption..|].
      apply Nat.le_antisymm.
      - apply Hmax; [eauto | assumption].
      - apply (Hmax' dir id); [|assumption].
        apply elem_of_map_to_list. exact Hm. }
    congruence.
  - rewrite (Hspec dir id) in Hpre; [discriminate Hpre|].
    apply elem_of_map_to_list. exact Hm.
Qed.

(** C6. On the registry [{"/": 1, "/usr/local": 5}] the four lookups of the
    spec give the stated answers; and in general, when [dir] is the longest
    registered key that is a string prefix of the item, [IsAllowed] answers,
    and answers [true] exactly when the queried device id is the id
    recorded at [dir]. *)
Theorem isAllowed_longest_ancestor :
  (IsAllowed testDeviceMap "/usr/local/foobar" 5 = Some true
   /\ IsAllowed testDeviceMap "/usr/local/foobar/submount" 23 = Some false
   /\ IsAllowed testDeviceMap "/usr" 3 = Some false
   /\ IsAllowed testDeviceMap "/root" 1 = Some true)
  /\ forall (m : gmap string N) (item : string) (deviceID : N)
            (dir : string) (allowedID : N),
      m !! dir = Some allowedID ->
      HasPrefix item dir = true ->
      (forall dir', is_Some (m !! dir') -> HasPrefix item dir' = true ->
         (String.length dir' <= String.length dir)%nat) ->
      exists res : bool,
        IsAllowed m item deviceID = Some res
        /\ (res = true <-> deviceID = allowedID).
Proof.
  split.
  - repeat split; vm_compute; reflexivity.
  - intros m item deviceID dir allowedID Hm Hpre Hmax.
    unfold IsAllowed.
    rewrite (longestAncestor_spec m item dir allowedID Hm Hpre Hmax).
    exists (N.eqb allowedID deviceID). split; [reflexivity|].
    rewrite N.eqb_eq. split; congruence.
Qed.

End DeviceBoundary.

(** ** The guards at work: the scenarios of the test suite *)

Section Scenarios.
Import GoStrings OS Debug Restic Hostinger Containment Fixtures Archiver.

(** C2 at work: below [/restore/sub], which resolves to [/restore/real], the
    relative link [../real/file] lands on [/restore/real/file], inside the
    scope [/restore]. *)
Lemma symlink_target_one_directional_witness :
  Filepath.IsAbs "/restore" = true
  /\ Type_ (symlinkNode "../real/file") = NodeTypeSymlink
  /\ evalDstDir restoreFS "/restore" "/restore/sub/lnk" = Proceed "/restore/real"
  /\ (allowed (SymlinkScopeNodeFilter "/restore" restoreFS "/restore/sub/lnk"
                 (symlinkNode "../real/file")) = true
      <-> Filepath.IsAbs "/restore/real/file" = true
          /\ HasPrefix "/restore/real/file" "/restore" = true).
Proof.
  split; [reflexivity|]. split; [reflexivity|]. split; [reflexivity|].
  apply (symlink_target_one_directional "/restore" restoreFS "/restore/sub/lnk"
           "/restore/real" (symlinkNode "../real/file"));
    reflexivity.
Defined.

(** C3 at work: [/restore/link] is a symlink to [/etc], so the file
    [/restore/link/passwd] is rejected although its path reads as inside
    [/restore]. *)
Lemma ancestor_outside_scope_rejected_witness :
  Lstat restoreFS (Filepath.Dir "/restore/link/passwd") <> Err ErrNotExist
  /\ EvalSymlinks restoreFS (Filepath.Dir "/restore/link/passwd") = Ok "/etc"
  /\ "/etc" <> Filepath.Dir "/restore/link/passwd"
  /\ compatible "/etc" "/restore" = false
  /\ allowed (SymlinkScopeNodeFilter "/restore" restoreFS "/restore/link/passwd"
                fileNode) = false.
Proof.
  assert (Hgate : Lstat restoreFS (Filepath.Dir "/restore/link/passwd")
                  <> Err ErrNotExist) by (vm_compute; discriminate).
  assert (Hne : "/etc" <> Filepath.Dir "/restore/link/passwd")
    by (vm_compute; discriminate).
  split; [exact Hgate|]. split; [reflexivity|]. split; [exact Hne|].
  split; [reflexivity|].
  exact (proj1 (ancestor_outside_scope_rejected "/restore" restoreFS
                  "/restore/link/passwd" "/etc" fileNode Hgate eq_refl)
               Hne eq_refl).
Defined.

(** C4 at work: the dangling symlinks of the two fixtures. *)
Lemma resolution_failure_is_rejection_witness :
  (RejectSymlinksOutsideScope (Ok "/") "/tmp/t/foodir"
   = Ok (rejectFn "/tmp/t/foodir")
   /\ EvalSymlinks backupFS "/tmp/t/broken" = Err ErrNotExist
   /\ excluded (rejectFn "/tmp/t/foodir" backupFS "/tmp/t/broken") = true)
  /\ (Lstat restoreFS (Filepath.Dir "/restore/dangling/passwd") <> Err ErrNotExist
      /\ EvalSymlinks restoreFS (Filepath.Dir "/restore/dangling/passwd")
         = Err ErrNotExist
      /\ allowed (SymlinkScopeNodeFilter "/restore" restoreFS
                    "/restore/dangling/passwd" fileNode) = false).
Proof.
  assert (Hgate : Lstat restoreFS (Filepath.Dir "/restore/dangling/passwd")
                  <> Err ErrNotExist) by (vm_compute; discriminate).
  split.
  - split; [reflexivity|]. split; [reflexivity|].
    exact (proj1 resolution_failure_is_rejection (Ok "/") "/tmp/t/foodir"
             (rejectFn "/tmp/t/foodir") backupFS "/tmp/t/broken" ErrNotExist
             eq_refl eq_refl).
  - split; [exact Hgate|]. split; [reflexivity|].
    exact (proj2 resolution_failure_is_rejection "/restore" restoreFS
             "/restore/dangling/passwd" fileNode ErrNotExist Hgate eq_refl).
Defined.

(** C5 at work: restoring the scope directory itself into an empty target. *)
Lemma nonsymlink_target_bidirectional_witness :
  Type_ dirNode <> NodeTypeSymlink
  /\ evalDstDir emptyFS restoreScope restoreScope
     = Proceed "/tmp/env/restore0/testdata/subdir1"
  /\ Filepath.Join ["/tmp/env/restore0/testdata/subdir1";
                    Filepath.Base restoreScope] = restoreScope
  /\ allowed (SymlinkScopeNodeFilter restoreScope emptyFS restoreScope dirNode)
     = true.
Proof.
  assert (Hty : Type_ dirNode <> NodeTypeSymlink) by (simpl; discriminate).
  split; [exact Hty|]. split; [reflexivity|]. split; [reflexivity|].
  exact (proj2 (nonsymlink_target_bidirectional restoreScope emptyFS restoreScope
                  "/tmp/env/restore0/testdata/subdir1" dirNode Hty eq_refl)
               eq_refl).
Defined.

(** C10 at work: nothing is on disk yet. *)
Lemma missing_parent_is_syntactic_witness :
  Lstat emptyFS (Filepath.Dir "/tmp/env/restore0/testdata/testfile1.c")
  = Err ErrNotExist
  /\ SymlinkScopeNodeFilter restoreScope emptyFS
       "/tmp/env/restore0/testdata/testfile1.c" fileNode
     = checkTarget restoreScope "/tmp/env/restore0/testdata"
         "/tmp/env/restore0/testdata/testfile1.c" fileNode.
Proof.
  split; [reflexivity|].
  exact (proj1 (missing_parent_is_syntactic restoreScope emptyFS
                  "/tmp/env/restore0/testdata/testfile1.c" fileNode eq_refl)).
Defined.

(** C7 (amended) at work: the symlink [123] of the test suite. *)
Lemma scope_prefix_is_included_witness :
  Filepath.IsAbs "/tmp/t/foodir" = true
  /\ RejectSymlinksOutsideScope (Ok "/") "/tmp/t/foodir"
     = Ok (rejectFn "/tmp/t/foodir")
  /\ EvalSymlinks backupFS "/tmp/t/123" = Ok "/tmp/t/foodir/foo"
  /\ HasPrefix "/tmp/t/foodir/foo" "/tmp/t/foodir" = true
  /\ excluded (rejectFn "/tmp/t/foodir" backupFS "/tmp/t/123") = false.
Proof.
  split; [reflexivity|]. split; [reflexivity|]. split; [reflexivity|].
  split; [reflexivity|].
  exact (scope_prefix_is_included (Ok "/") "/tmp/t/foodir"
           (rejectFn "/tmp/t/foodir") backupFS "/tmp/t/123" "/tmp/t/foodir/foo"
           eq_refl eq_refl eq_refl eq_refl).
Defined.

(** C8 at work: the sibling directory [/foodir2] reached through the
    symlinks [/foodir/y] and [/foodir/link]. *)
Lemma raw_prefix_false_containment_witness :
  (EvalSymlinks siblingFS "/foodir/y" = Ok "/foodir2/x"
   /\ rejectFn "/foodir" siblingFS "/foodir/y" = (false, []))
  /\ (evalDstDir siblingFS "/foodir" "/foodir/z" = Proceed "/foodir"
      /\ SymlinkScopeNodeFilter "/foodir" siblingFS "/foodir/z"
           (symlinkNode "/foodir2/x") = (true, []))
  /\ (Type_ fileNode <> NodeTypeSymlink
      /\ Filepath.Base "/foodir/link/x" = "x"
      /\ Lstat siblingFS (Filepath.Dir "/foodir/link/x") <> Err ErrNotExist
      /\ EvalSymlinks siblingFS (Filepath.Dir "/foodir/link/x") = Ok "/foodir2"
      /\ SymlinkScopeNodeFilter "/foodir" siblingFS "/foodir/link/x" fileNode
         = (true, [])).
Proof.
  assert (Hty : Type_ fileNode <> NodeTypeSymlink) by (simpl; discriminate).
  assert (Hgate : Lstat siblingFS (Filepath.Dir "/foodir/link/x")
                  <> Err ErrNotExist) by (vm_compute; discriminate).
  destruct raw_prefix_false_containment as (_ & Hguard & Hlink & Hitem).
  split; [|split].
  - split; [reflexivity|].
    exact (Hguard (Ok "/") (rejectFn "/foodir") siblingFS "/foodir/y"
             eq_refl eq_refl).
  - split; [reflexivity|].
    exact (Hlink siblingFS "/foodir/z" "/foodir" eq_refl).
  - split; [exact Hty|]. split; [reflexivity|]. split; [exact Hgate|].
    split; [reflexivity|].
    exact (Hitem siblingFS "/foodir/link/x" fileNode Hty eq_refl Hgate eq_refl).
Defined.

(** C6 at work: [/usr/local] is the longest registered prefix of
    [/usr/local/foobar]. *)
Lemma isAllowed_longest_ancestor_witness :
  testDeviceMap !! "/usr/local" = Some 5%N
  /\ HasPrefix "/usr/local/foobar" "/usr/local" = true
  /\ (forall dir', is_Some (testDeviceMap !! dir') ->
        HasPrefix "/usr/local/foobar" dir' = true ->
        (String.length dir' <= String.length "/usr/local")%nat)
  /\ exists res : bool,
      IsAllowed testDeviceMap "/usr/local/foobar" 23 = Some res
      /\ (res = true <-> 23%N = 5%N).
Proof.
  assert (Hmax : forall dir', is_Some (testDeviceMap !! dir') ->
            HasPrefix "/usr/local/foobar" dir' = true ->
            (String.length dir' <= String.length "/usr/local")%nat).
  { intros dir' [id Hid] _. unfold testDeviceMap in Hid.
    apply lookup_insert_Some in Hid as [[<- _]|[_ Hid]]; [simpl; lia|].
    apply lookup_insert_Some in Hid as [[<- _]|[_ Hid]]; [simpl; lia|].
    rewrite lookup_empty in Hid. discriminate Hid. }
  split; [reflexivity|]. split; [reflexivity|]. split; [exact Hmax|].
  exact (proj2 isAllowed_longest_ancestor testDeviceMap "/usr/local/foobar"
           23%N "/usr/local" 5%N eq_refl eq_refl Hmax).
Defined.

End Scenarios.

(** * Further properties of the guards *)

(** ** How [path/filepath] acts on paths of ordinary segments *)

Section PathAlgebra.
Import GoStrings PathShape Containment.

Lemma append_nil_r (s : string) : s +:+ EmptyString = s.
Proof.
  induction s as [|a s IH]; [reflexivity|].
  rewrite append_cons, IH. reflexivity.
Qed.

Lemma sep_append (s : string) : "/" +:+ s = String "/" s.
Proof. reflexivity. Qed.

Lemma plainElem_inv (e : string) :
  plainElem e = true ->
  e <> EmptyString /\ e <> "." /\ e <> ".." /\ Filepath.hasSep e = false.
Proof.
  unfold plainElem. rewrite !andb_true_iff, !negb_true_iff.
  intros [[[H1 H2] H3] H4].
  apply String.eqb_neq in H1, H2, H3. auto.
Qed.

Lemma splitSep_nonempty (p : string) : Filepath.splitSep p <> [].
Proof.
  destruct p as [|c p]; simpl; [discriminate|].
  destruct (Filepath.IsPathSeparator c); [discriminate|].
  destruct (Filepath.splitSep p); discriminate.
Qed.

(** A string without separators is one element. *)
Lemma splitSep_plain (e : string) :
  Filepath.hasSep e = false -> Filepath.splitSep e = [e].
Proof.
  induction e as [|c e IH]; [reflexivity|].
  simpl. intros H. apply orb_false_iff in H as [Hc He].
  rewrite Hc, (IH He). reflexivity.
Qed.

(** Splitting distributes over a separator. *)
Lemma splitSep_app_sep (a b : string) :
  Filepath.splitSep (a +:+ String "/" b)
  = Filepath.splitSep a ++ Filepath.splitSep b.
Proof.
  induction a as [|c a IH]; [reflexivity|].
  rewrite append_cons. simpl.
  destruct (Filepath.IsPathSeparator c).
  - rewrite IH. reflexivity.
  - rewrite IH.
    destruct (Filepath.splitSep a) as [|e es] eqn:Ha;
      [exfalso; exact (splitSep_nonempty a Ha) | reflexivity].
Qed.

Lemma segments_app_sep (a b : string) :
  segments (a +:+ String "/" b) = segments a ++ segments b.
Proof. unfold segments. rewrite splitSep_app_sep. apply List.filter_app. Qed.

Lemma segments_plain (x : string) : plainElem x = true -> segments x = [x].
Proof.
  intros Hx. destruct (plainElem_inv x Hx) as (Hne & _ & _ & Hsep).
  unfold segments. rewrite (splitSep_plain x Hsep). simpl.
  apply String.eqb_neq in Hne. rewrite Hne. reflexivity.
Qed.

Lemma Join_snoc (segs : list string) (x sep : string) :
  segs <> [] -> Join (segs ++ [x]) sep = Join segs sep +:+ sep +:+ x.
Proof.
  induction segs as [|e segs IH]; [congruence|]. intros _.
  destruct segs as [|y segs]; [reflexivity|].
  change ((e :: y :: segs) ++ [x]) with (e :: y :: (segs ++ [x])).
  rewrite !Join_cons2.
  change (y :: segs ++ [x]) with ((y :: segs) ++ [x]).
  rewrite IH by discriminate. rewrite !append_assoc. reflexivity.
Qed.

Lemma segments_Join (segs : list string) :
  plainSegs segs = true -> segments (Join segs "/") = segs.
Proof.
  induction segs as [|e segs IH]; [reflexivity|].
  intros H. apply andb_true_iff in H as [He Hs].
  destruct segs as [|y segs]; [exact (segments_plain e He)|].
  rewrite Join_cons2, sep_append, segments_app_sep.
  rewrite (segments_plain e He), (IH Hs). reflexivity.
Qed.

Lemma segments_render (segs : list string) :
  plainSegs segs = true -> segments (render segs) = segs.
Proof.
  intros H. unfold render. rewrite sep_append.
  change (String "/" (Join segs "/"))
    with (EmptyString +:+ String "/" (Join segs "/")).
  rewrite segments_app_sep. exact (segments_Join segs H).
Qed.

Lemma tidy_app_sep (a b : string) :
  tidy (a +:+ String "/" b) = tidy a && tidy b.
Proof. unfold tidy. rewrite splitSep_app_sep. apply forallb_app. Qed.

Lemma tidy_plain (x : string) : plainElem x = true -> tidy x = true.
Proof.
  intros Hx. destruct (plainElem_inv x Hx) as (_ & _ & _ & Hsep).
  unfold tidy. rewrite (splitSep_plain x Hsep). simpl.
  rewrite Hx, orb_true_r. reflexivity.
Qed.

Lemma tidy_Join (segs : list string) :
  plainSegs segs = true -> tidy (Join segs "/") = true.
Proof.
  induction segs as [|e segs IH]; [reflexivity|].
  intros H. apply andb_true_iff in H as [He Hs].
  destruct segs as [|y segs]; [exact (tidy_plain e He)|].
  rewrite Join_cons2, sep_append, tidy_app_sep.
  rewrite (tidy_plain e He), (IH Hs). reflexivity.
Qed.

Lemma tidy_render (segs : list string) :
  plainSegs segs = true -> tidy (render segs) = true.
Proof.
  intros H. unfold render. rewrite sep_append.
  change (String "/" (Join segs "/"))
    with (EmptyString +:+ String "/" (Join segs "/")).
  rewrite tidy_app_sep. exact (tidy_Join segs H).
Qed.

(** The element loop of [Clean] on tidy elements keeps the non-empty ones,
    in order. *)
Lemma fold_cleanElem_tidy (rooted : bool) (elems out : list string) :
  forallb (fun e => String.eqb e EmptyString || plainElem e) elems = true ->
  fold_left (Filepath.cleanElem rooted) elems out
  = rev (List.filter (fun e => negb (String.eqb e EmptyString)) elems) ++ out.
Proof.
  revert out. induction elems as [|e elems IH]; intros out H; [reflexivity|].
  simpl in H. apply andb_true_iff in H as [He Hs].
  simpl. rewrite (IH _ Hs). unfold Filepath.cleanElem.
  destruct (String.eqb e EmptyString) eqn:Hempty; [reflexivity|].
  simpl in He. destruct (plainElem_inv e He) as (_ & Hdot & Hdotdot & _).
  apply String.eqb_neq in Hdot, Hdotdot. rewrite Hdot, Hdotdot.
  simpl. rewrite <- app_assoc. reflexivity.
Qed.

Lemma IsAbs_nonempty (p : string) :
  Filepath.IsAbs p = true -> String.eqb p EmptyString = false.
Proof. destruct p; [discriminate | reflexivity]. Qed.

(** [Clean] on a rooted tidy path. *)
Lemma Clean_rooted_tidy (p : string) :
  Filepath.IsAbs p = true -> tidy p = true ->
  Filepath.Clean p = render (segments p).
Proof.
  intros Habs Htidy. unfold Filepath.Clean.
  rewrite (IsAbs_nonempty p Habs), Habs.
  rewrite (fold_cleanElem_tidy true _ [] Htidy).
  rewrite app_nil_r, rev_involutive. reflexivity.
Qed.

Lemma Join_nonempty (e : string) (segs : list string) :
  e <> EmptyString -> Join (e :: segs) "/" <> EmptyString.
Proof.
  intros He. destruct segs as [|y segs]; [exact He|].
  rewrite Join_cons2. destruct e; [congruence | discriminate].
Qed.

(** [Clean] on a relative tidy path with at least one segment. *)
Lemma Clean_relative_tidy (p : string) :
  Filepath.IsAbs p = false -> tidy p = true -> segments p <> [] ->
  Filepath.Clean p = Join (segments p) "/".
Proof.
  intros Hrel Htidy Hsegs. unfold Filepath.Clean.
  destruct (String.eqb p EmptyString) eqn:Hp.
  { apply String.eqb_eq in Hp. subst p. contradiction Hsegs. reflexivity. }
  rewrite Hrel, (fold_cleanElem_tidy false _ [] Htidy).
  rewrite app_nil_r, rev_involutive. fold (segments p).
  destruct (segments p) as [|e segs] eqn:Hs; [congruence|].
  assert (He : e <> EmptyString).
  { assert (Hin : In e (segments p)) by (rewrite Hs; left; reflexivity).
    unfold segments in Hin. apply List.filter_In in Hin as [_ Hne].
    apply negb_true_iff, String.eqb_neq in Hne. exact Hne. }
  apply (Join_nonempty e segs) in He.
  apply String.eqb_neq in He. rewrite He. reflexivity.
Qed.

Lemma render_IsAbs (segs : list string) : Filepath.IsAbs (render segs) = true.
Proof. unfold render, Filepath.IsAbs. apply HasPrefix_app. Qed.

(** [Clean] leaves a path of ordinary segments alone. *)
Lemma Clean_render (segs : list string) :
  plainSegs segs = true -> Filepath.Clean (render segs) = render segs.
Proof.
  intros H.
  rewrite (Clean_rooted_tidy _ (render_IsAbs segs) (tidy_render segs H)).
  rewrite (segments_render segs H). reflexivity.
Qed.

End PathAlgebra.

(** ** [Join], [Dir] and [Base] on paths of ordinary segments *)

Section JoinDirBase.
Import GoStrings PathShape Containment.

Lemma IsAbs_cons (c : ascii) (rest : string) :
  Filepath.IsAbs (String c rest) = Filepath.IsPathSeparator c.
Proof.
  unfold Filepath.IsAbs, Filepath.IsPathSeparator, Filepath.Separator.
  destruct (Ascii.eqb c "/") eqn:Hc.
  - apply Ascii.eqb_eq in Hc as ->.
    apply HasPrefix_cons. split; [reflexivity | apply HasPrefix_nil].
  - destruct (HasPrefix (String c rest) "/") eqn:H; [|reflexivity].
    apply HasPrefix_cons in H as [-> _].
    rewrite Ascii.eqb_refl in Hc. discriminate Hc.
Qed.

Lemma IsAbs_app (a b : string) :
  Filepath.IsAbs a = true -> Filepath.IsAbs (a +:+ b) = true.
Proof.
  destruct a as [|c a]; [discriminate|].
  rewrite append_cons, !IsAbs_cons. trivial.
Qed.

Lemma IsAbs_Clean (p : string) :
  Filepath.IsAbs p = true -> Filepath.IsAbs (Filepath.Clean p) = true.
Proof.
  intros Habs. unfold Filepath.Clean.
  rewrite (IsAbs_nonempty p Habs), Habs. apply HasPrefix_app.
Qed.

(** [Join] of two elements, the first of which is absolute. *)
Lemma Join2_abs (a b : string) :
  Filepath.IsAbs a = true ->
  Filepath.Join [a; b] = Filepath.Clean (a +:+ String "/" b).
Proof. intros Habs. simpl. rewrite (IsAbs_nonempty a Habs). reflexivity. Qed.

(** Joining a relative path of ordinary segments to a directory appends
    its segments. *)
Lemma Join_render_rel (segs rel : list string) :
  plainSegs segs = true -> plainSegs rel = true ->
  Filepath.Join [render segs; Join rel "/"] = render (segs ++ rel).
Proof.
  intros Hs Hr. rewrite (Join2_abs _ _ (render_IsAbs segs)).
  rewrite Clean_rooted_tidy.
  - rewrite segments_app_sep, (segments_render segs Hs), (segments_Join rel Hr).
    reflexivity.
  - apply IsAbs_app, render_IsAbs.
  - rewrite tidy_app_sep, (tidy_render segs Hs), (tidy_Join rel Hr).
    reflexivity.
Qed.

Lemma Join_render_name (segs : list string) (x : string) :
  plainSegs segs = true -> plainElem x = true ->
  Filepath.Join [render segs; x] = render (segs ++ [x]).
Proof.
  intros Hs Hx. apply (Join_render_rel segs [x] Hs).
  simpl. rewrite Hx. reflexivity.
Qed.

(** A directory joined with [..] is its parent. *)
Lemma Join_render_dotdot (segs : list string) (d : string) :
  plainSegs (segs ++ [d]) = true ->
  Filepath.Join [render (segs ++ [d]); ".."] = render segs.
Proof.
  intros H. rewrite (Join2_abs _ _ (render_IsAbs _)).
  unfold Filepath.Clean.
  rewrite (IsAbs_nonempty _ (IsAbs_app _ _ (render_IsAbs (segs ++ [d])))).
  rewrite (IsAbs_app _ _ (render_IsAbs (segs ++ [d]))).
  rewrite splitSep_app_sep, fold_left_app.
  rewrite (fold_cleanElem_tidy true _ [] (tidy_render _ H)).
  fold (segments (render (segs ++ [d]))).
  rewrite (segments_render _ H), app_nil_r, rev_app_distr. simpl.
  unfold plainSegs in H. rewrite forallb_app in H.
  apply andb_true_iff in H as [_ Hd]. simpl in Hd.
  rewrite andb_true_r in Hd.
  destruct (plainElem_inv d Hd) as (_ & _ & Hdd & _).
  apply String.eqb_neq in Hdd.
  unfold Filepath.cleanElem, Filepath.canBacktrack. simpl. rewrite Hdd. simpl.
  rewrite rev_involutive. reflexivity.
Qed.

(** A path of at least one segment, split before its last segment. *)
Lemma render_snoc (segs : list string) (x : string) :
  render (segs ++ [x])
  = match segs with [] => EmptyString | _ => render segs end +:+ String "/" x.
Proof.
  destruct segs as [|e segs]; [reflexivity|].
  unfold render. rewrite Join_snoc by discriminate.
  rewrite !sep_append, !append_cons. reflexivity.
Qed.

Lemma hasSep_app_sep (a b : string) :
  Filepath.hasSep (a +:+ String "/" b) = true.
Proof.
  induction a as [|c a IH]; [reflexivity|].
  rewrite append_cons. simpl. rewrite IH. apply orb_true_r.
Qed.

Lemma uptoLastSep_app_sep (a x : string) :
  Filepath.hasSep x = false ->
  Filepath.uptoLastSep (a +:+ String "/" x) = a +:+ "/".
Proof.
  intros Hx. induction a as [|c a IH].
  - change (EmptyString +:+ String "/" x) with (String "/" x).
    simpl. destruct x as [|c x]; [reflexivity|].
    simpl in Hx. simpl. rewrite Hx. reflexivity.
  - rewrite !append_cons.
    change (Filepath.uptoLastSep (String c (a +:+ String "/" x)))
      with (if Filepath.hasSep (String c (a +:+ String "/" x))
            then String c (Filepath.uptoLastSep (a +:+ String "/" x))
            else EmptyString).
    simpl Filepath.hasSep. rewrite hasSep_app_sep, orb_true_r, IH.
    reflexivity.
Qed.

Lemma afterLastSep_app_sep (a x : string) :
  Filepath.hasSep x = false ->
  Filepath.afterLastSep (a +:+ String "/" x) = x.
Proof.
  intros Hx. induction a as [|c a IH].
  - change (EmptyString +:+ String "/" x) with (String "/" x).
    simpl. destruct x as [|c x]; [reflexivity|].
    simpl in Hx. simpl. rewrite Hx. reflexivity.
  - rewrite append_cons.
    change (Filepath.afterLastSep (String c (a +:+ String "/" x)))
      with (if Filepath.hasSep (String c (a +:+ String "/" x))
            then Filepath.afterLastSep (a +:+ String "/" x)
            else String c (a +:+ String "/" x)).
    simpl Filepath.hasSep. rewrite hasSep_app_sep, orb_true_r. exact IH.
Qed.

Lemma append_nonempty_r (a x : string) :
  x <> EmptyString -> String.eqb (a +:+ x) EmptyString = false.
Proof.
  intros Hx. destruct a as [|c a]; [|reflexivity].
  apply String.eqb_neq. exact Hx.
Qed.

(** A path that ends in a non-empty separator-free element has no trailing
    separators to strip. *)
Lemma trimRightSep_app (a x : string) :
  x <> EmptyString -> Filepath.hasSep x = false ->
  Filepath.trimRightSep (a +:+ x) = a +:+ x.
Proof.
  intros Hne Hx. induction a as [|c a IH].
  - change (EmptyString +:+ x) with x. clear Hne.
    induction x as [|c x IHx]; [reflexivity|].
    simpl in Hx. apply orb_false_iff in Hx as [Hc Hx].
    simpl. rewrite Hc, (IHx Hx). reflexivity.
  - rewrite append_cons. simpl. rewrite IH, (append_nonempty_r a x Hne).
    rewrite andb_false_r. reflexivity.
Qed.

Lemma Dir_render_snoc (segs : list string) (x : string) :
  plainSegs segs = true -> plainElem x = true ->
  Filepath.Dir (render (segs ++ [x])) = render segs.
Proof.
  intros Hs Hx. destruct (plainElem_inv x Hx) as (_ & _ & _ & Hsep).
  unfold Filepath.Dir. rewrite render_snoc, (uptoLastSep_app_sep _ x Hsep).
  destruct segs as [|e segs]; [reflexivity|].
  rewrite Clean_rooted_tidy.
  - rewrite segments_app_sep, (segments_render _ Hs). apply f_equal, app_nil_r.
  - apply IsAbs_app, render_IsAbs.
  - rewrite tidy_app_sep, (tidy_render _ Hs). reflexivity.
Qed.

Lemma Base_render_snoc (segs : list string) (x : string) :
  plainElem x = true -> Filepath.Base (render (segs ++ [x])) = x.
Proof.
  intros Hx. destruct (plainElem_inv x Hx) as (Hne & _ & _ & Hsep).
  unfold Filepath.Base. rewrite render_snoc.
  set (pre := match segs with [] => EmptyString | _ => render segs end).
  assert (Hnonempty : String.eqb (pre +:+ String "/" x) EmptyString = false)
    by (apply append_nonempty_r; discriminate).
  rewrite Hnonempty.
  replace (pre +:+ String "/" x) with ((pre +:+ "/") +:+ x)
    by (rewrite append_assoc; reflexivity).
  rewrite (trimRightSep_app _ x Hne Hsep), append_assoc, sep_append.
  rewrite (afterLastSep_app_sep pre x Hsep).
  apply String.eqb_neq in Hne. rewrite Hne. reflexivity.
Qed.

End JoinDirBase.

(** ** More facts about prefixes *)

Section MorePrefixFacts.
Import GoStrings OS Debug Restic Hostinger.

Lemma append_length (a b : string) :
  String.length (a +:+ b) = (String.length a + String.length b)%nat.
Proof.
  induction a as [|c a IH]; [reflexivity|].
  rewrite append_cons. simpl. rewrite IH. reflexivity.
Qed.

Lemma HasPrefix_length (s p : string) :
  HasPrefix s p = true -> (String.length p <= String.length s)%nat.
Proof.
  intros H. apply HasPrefix_app_inv in H as [r ->].
  rewrite append_length. lia.
Qed.

(** Two prefixes of one string: one of them is a prefix of the other. *)
Lemma prefixes_comparable (s p q : string) :
  HasPrefix s p = true -> HasPrefix s q = true ->
  HasPrefix p q = true \/ HasPrefix q p = true.
Proof.
  revert p q. induction s as [|a s IH]; intros p q Hp Hq.
  - destruct p; [|discriminate Hp]. right. apply HasPrefix_nil.
  - destruct p as [|b p]; [right; apply HasPrefix_nil|].
    destruct q as [|c q]; [left; apply HasPrefix_nil|].
    apply HasPrefix_cons in Hp as [<- Hp].
    apply HasPrefix_cons in Hq as [<- Hq].
    destruct (IH p q Hp Hq) as [H|H]; [left|right];
      apply HasPrefix_cons; auto.
Qed.

(** Compatibility with a scope carries over to every prefix of the scope. *)
Lemma compatible_widen (t inner outer : string) :
  HasPrefix inner outer = true ->
  compatible t inner = true -> compatible t outer = true.
Proof.
  unfold compatible. intros Hio H. apply orb_true_iff in H as [H|H];
    apply orb_true_iff.
  - left. exact (HasPrefix_trans _ _ _ H Hio).
  - destruct (prefixes_comparable inner t outer H Hio); auto.
Qed.

Lemma compatible_tests (a b : string) :
  negb (HasPrefix a b) && negb (HasPrefix b a) = negb (compatible a b).
Proof. unfold compatible. rewrite negb_orb. reflexivity. Qed.

Lemma evalDstDir_widen (fsys : FileSystem) (inner outer item dstdir : string) :
  HasPrefix inner outer = true ->
  evalDstDir fsys inner item = Proceed dstdir ->
  evalDstDir fsys outer item = Proceed dstdir.
Proof.
  intros Hio. unfold evalDstDir.
  destruct (match Lstat fsys (Filepath.Dir item) with
            | Ok _ => true
            | Err err => negb (IsNotExist err)
            end); [|trivial].
  destruct (EvalSymlinks fsys (Filepath.Dir item)) as [e|err]; [|trivial].
  destruct (negb (String.eqb e (Filepath.Dir item))); [|trivial].
  rewrite !compatible_tests.
  destruct (compatible e inner) eqn:Hc; [|discriminate].
  rewrite (compatible_widen e inner outer Hio Hc). trivial.
Qed.

Lemma checkTarget_widen (inner outer dstdir item : string) (node : Node) :
  HasPrefix inner outer = true ->
  allowed (checkTarget inner dstdir item node) = true ->
  allowed (checkTarget outer dstdir item node) = true.
Proof.
  intros Hio. rewrite !checkTarget_allowed.
  destruct (NodeType_eqb (Type_ node) NodeTypeSymlink).
  - intros H. exact (HasPrefix_trans _ _ _ H Hio).
  - apply compatible_widen. exact Hio.
Qed.

Lemma Join_app (a c : list string) (sep : string) :
  a <> [] -> c <> [] ->
  Join (a ++ c) sep = Join a sep +:+ sep +:+ Join c sep.
Proof.
  intros Ha Hc. induction a as [|e a IH]; [congruence|].
  destruct a as [|y a].
  - destruct c as [|z c]; [congruence | reflexivity].
  - change ((e :: y :: a) ++ c) with (e :: y :: (a ++ c)).
    rewrite !Join_cons2.
    change (y :: a ++ c) with ((y :: a) ++ c).
    rewrite IH by discriminate. rewrite !append_assoc. reflexivity.
Qed.

Lemma isPrefixSeq_app_l (a c : list string) :
  Containment.isPrefixSeq a (a ++ c) = true.
Proof.
  induction a as [|x a IH]; [reflexivity|].
  simpl. rewrite String.eqb_refl. exact IH.
Qed.

End MorePrefixFacts.

(** ** The backup guard: construction and scope *)

Section BackupScope.
Import GoStrings OS Debug Restic Hostinger Containment PathShape.

(** X1. Building the backup guard fails in one case only: the scope path is
    not absolute and the working directory cannot be determined; the error
    returned is that of [os.Getwd].  An absolute scope path never fails. *)
Theorem scope_construction_fails_only_on_getwd
    (getwd : result string) (scopePath : string) (err : Error) :
  RejectSymlinksOutsideScope getwd scopePath = Err err
  <-> Filepath.IsAbs scopePath = false /\ getwd = Err err.
Proof.
  unfold RejectSymlinksOutsideScope, Abs.
  destruct (Filepath.IsAbs scopePath); simpl.
  - split; [discriminate | intros [H _]; discriminate H].
  - destruct getwd as [wd|e]; split.
    + discriminate.
    + intros [_ H]. discriminate H.
    + intros [= ->]. auto.
    + intros [_ [= ->]]. reflexivity.
Qed.

(** X2. The scope a built guard tests against is an absolute path, provided
    the working directory reported by [os.Getwd] is; an absolute scope path
    is stored exactly as given. *)
Theorem stored_scope_is_absolute
    (getwd : result string) (scopePath : string) (guard : RejectFunc) :
  (forall wd, getwd = Ok wd -> Filepath.IsAbs wd = true) ->
  RejectSymlinksOutsideScope getwd scopePath = Ok guard ->
  exists stored : string,
    guard = rejectFn stored
    /\ Filepath.IsAbs stored = true
    /\ (Filepath.IsAbs scopePath = true -> stored = scopePath).
Proof.
  intros Hwd Hguard. unfold RejectSymlinksOutsideScope, Abs in Hguard.
  destruct (Filepath.IsAbs scopePath) eqn:Habs; simpl in Hguard.
  - injection Hguard as <-. exists scopePath. auto.
  - destruct getwd as [wd|e]; [|discriminate Hguard].
    injection Hguard as <-. exists (Filepath.Join [wd; scopePath]).
    split; [reflexivity|]. split; [|discriminate].
    specialize (Hwd wd eq_refl).
    rewrite (Join2_abs _ _ Hwd). apply IsAbs_Clean, IsAbs_app, Hwd.
Qed.

(** X3. Widening the scope never excludes more: if the (absolute) scope
    [outer] is a string prefix of the scope [inner], every entry included by
    the guard for [inner] is included by the guard for [outer]. *)
Theorem wider_scope_includes_more
    (getwd : result string) (outer inner : string)
    (guardOuter guardInner : RejectFunc) (fsys : FileSystem) (path : string) :
  Filepath.IsAbs outer = true ->
  HasPrefix inner outer = true ->
  RejectSymlinksOutsideScope getwd outer = Ok guardOuter ->
  RejectSymlinksOutsideScope getwd inner = Ok guardInner ->
  excluded (guardInner fsys path) = false ->
  excluded (guardOuter fsys path) = false.
Proof.
  intros Habs Hio Ho Hi.
  rewrite (guard_of_absolute_scope getwd outer Habs) in Ho.
  rewrite (guard_of_absolute_scope getwd inner
             (IsAbs_of_prefix inner outer Habs Hio)) in Hi.
  injection Ho as <-. injection Hi as <-.
  rewrite !rejectFn_excluded.
  destruct (EvalSymlinks fsys path) as [target|err]; [|trivial].
  rewrite !negb_false_iff. intros H. exact (HasPrefix_trans _ _ _ H Hio).
Qed.

(** X5. A built backup guard emits exactly one diagnostic record when it
    excludes an entry and none when it includes it. *)
Theorem backup_guard_one_record_per_exclusion
    (getwd : result string) (scopePath : string) (guard : RejectFunc)
    (fsys : FileSystem) (path : string) :
  RejectSymlinksOutsideScope getwd scopePath = Ok guard ->
  List.length (emitted (guard fsys path))
  = if excluded (guard fsys path) then 1%nat else 0%nat.
Proof.
  intros Hguard. destruct (guard_is_closure _ _ _ Hguard) as [stored ->].
  apply rejectFn_diagnostics.
Qed.

(** X7. For canonical paths, an entry whose resolved path is the scope root
    or lies below it, segment by segment, is included by the backup guard,
    without a diagnostic. *)
Theorem inside_is_included
    (getwd : result string) (scopeRoot : string) (guard : RejectFunc)
    (fsys : FileSystem) (path target : string) :
  canonical scopeRoot = true -> canonical target = true ->
  RejectSymlinksOutsideScope getwd scopeRoot = Ok guard ->
  EvalSymlinks fsys path = Ok target ->
  inside scopeRoot target = true ->
  guard fsys path = (false, []).
Proof.
  intros Hr Ht Hguard Heval Hin.
  rewrite (guard_of_absolute_scope getwd scopeRoot (canonical_IsAbs _ Hr))
    in Hguard.
  injection Hguard as <-.
  unfold rejectFn. rewrite Heval, (inside_HasPrefix _ _ Hr Ht Hin).
  reflexivity.
Qed.

(** X8. An absolute scope path is not cleaned, so a trailing separator
    stays part of the tested prefix: for a canonical scope root other than
    [/], the guard built from the root followed by a separator includes an
    entry exactly when its (canonical) resolved path lies strictly below
    the root, segment by segment.  Sibling names that merely extend the
    root's name are then excluded, and so is the root itself. *)
Theorem trailing_separator_scope_is_exact
    (getwd : result string) (scopeRoot : string) (guard : RejectFunc)
    (fsys : FileSystem) (path target : string) :
  canonical scopeRoot = true -> segments scopeRoot <> [] ->
  canonical target = true ->
  RejectSymlinksOutsideScope getwd (scopeRoot +:+ "/") = Ok guard ->
  EvalSymlinks fsys path = Ok target ->
  excluded (guard fsys path) = false
  <-> strictlyInside scopeRoot target = true.
Proof.
  intros Hr Hne Ht Hguard Heval.
  rewrite (guard_of_absolute_scope getwd _
             (IsAbs_app _ "/" (canonical_IsAbs _ Hr))) in Hguard.
  injection Hguard as <-.
  rewrite rejectFn_excluded, Heval, negb_false_iff.
  unfold canonical in Hr, Ht. apply String.eqb_eq in Hr, Ht.
  unfold strictlyInside, inside.
  remember (segments scopeRoot) as a eqn:Ha.
  remember (segments target) as b eqn:Hb.
  split.
  - intros Hpre. apply HasPrefix_app_inv in Hpre as [r Hsplit].
    rewrite append_assoc, sep_append in Hsplit.
    assert (Hsegs : b = a ++ segments r).
    { rewrite Hb, Ha, Hsplit. apply segments_app_sep. }
    rewrite Hsegs, isPrefixSeq_app_l. simpl.
    apply Nat.ltb_lt. rewrite length_app.
    destruct (segments r) as [|x rest]; [|simpl; lia].
    exfalso. rewrite app_nil_r in Hsegs.
    assert (Hlen : String.length target = String.length scopeRoot)
      by (rewrite Ht, Hr, Hsegs; reflexivity).
    rewrite Hsplit, append_length in Hlen. simpl in Hlen. lia.
  - intros H. apply andb_true_iff in H as [Hin Hlt].
    destruct (isPrefixSeq_app _ _ Hin) as [c Hc].
    apply Nat.ltb_lt in Hlt.
    assert (c <> []) as Hcne.
    { intros ->. rewrite Hc, app_nil_r in Hlt. lia. }
    rewrite Ht, Hc, Hr. unfold render.
    rewrite (Join_app a c "/" Hne Hcne), <- !append_assoc.
    apply HasPrefix_app.
Qed.

Lemma Clean_trailing_sep (p : string) :
  p <> EmptyString -> Filepath.Clean (p +:+ "/") = Filepath.Clean p.
Proof.
  intros Hp. destruct p as [|c p]; [congruence|].
  unfold Filepath.Clean.
  rewrite append_cons, !IsAbs_cons.
  change (String.eqb (String c (p +:+ "/")) EmptyString) with false.
  change (String.eqb (String c p) EmptyString) with false.
  cbv iota. rewrite <- append_cons.
  rewrite splitSep_app_sep, fold_left_app. reflexivity.
Qed.

(** X14. A scope path that is not absolute is cleaned on the way: a
    trailing separator makes no difference to the guard that is built (or
    to the error that is returned). *)
Theorem relative_scope_trailing_separator
    (getwd : result string) (scopePath : string) :
  Filepath.IsAbs scopePath = false -> scopePath <> EmptyString ->
  RejectSymlinksOutsideScope getwd (scopePath +:+ "/")
  = RejectSymlinksOutsideScope getwd scopePath.
Proof.
  intros Hrel Hne. unfold RejectSymlinksOutsideScope, Abs.
  assert (Hrel' : Filepath.IsAbs (scopePath +:+ "/") = false).
  { destruct scopePath as [|c s]; [congruence|].
    rewrite append_cons, IsAbs_cons. rewrite IsAbs_cons in Hrel. exact Hrel. }
  rewrite Hrel, Hrel'. simpl.
  destruct getwd as [wd|err]; [|reflexivity].
  do 2 f_equal.
  rewrite (append_nonempty_r scopePath "/" ltac:(discriminate)).
  apply String.eqb_neq in Hne. rewrite Hne.
  destruct (String.eqb wd EmptyString).
  - apply Clean_trailing_sep. apply String.eqb_neq. exact Hne.
  - rewrite <- (Clean_trailing_sep (wd +:+ "/" +:+ scopePath)).
    + rewrite !append_assoc. reflexivity.
    + destruct wd; discriminate.
Qed.

(** X15. The empty scope path stands for the working directory: the guard
    tests against the cleaned working directory. *)
Theorem empty_scope_is_working_directory (wd : string) :
  wd <> EmptyString ->
  RejectSymlinksOutsideScope (Ok wd) EmptyString
  = Ok (rejectFn (Filepath.Clean wd)).
Proof.
  intros Hne. unfold RejectSymlinksOutsideScope, Abs. simpl.
  apply String.eqb_neq in Hne. rewrite Hne.
  do 2 f_equal. apply String.eqb_neq in Hne.
  rewrite <- (Clean_trailing_sep wd Hne). reflexivity.
Qed.

End BackupScope.

(** ** The restore filter: scope, locations, diagnostics *)

Section RestoreScope.
Import GoStrings OS Debug Restic Hostinger Containment PathShape.

Variable fsys : FileSystem.

(** Where lines 18-35 can leave [dstdir]: at the parent directory of the
    item, or at what [EvalSymlinks] returned for it. *)
Lemma evalDstDir_Proceed_inv (scope item dstdir : string) :
  evalDstDir fsys scope item = Proceed dstdir ->
  dstdir = Filepath.Dir item
  \/ EvalSymlinks fsys (Filepath.Dir item) = Ok dstdir.
Proof.
  unfold evalDstDir.
  destruct (match Lstat fsys (Filepath.Dir item) with
            | Ok _ => true
            | Err err => negb (IsNotExist err)
            end); [|intros [= <-]; auto].
  destruct (EvalSymlinks fsys (Filepath.Dir item)) as [e|err]; [|discriminate].
  destruct (negb (String.eqb e (Filepath.Dir item))).
  - destruct (negb (HasPrefix e scope) && negb (HasPrefix scope e));
      [discriminate | intros [= <-]; auto].
  - intros [= <-]. auto.
Qed.

(** Lines 18-35 when the parent directory is missing or resolves to itself. *)
Lemma evalDstDir_unchanged (scope item : string) :
  Lstat fsys (Filepath.Dir item) = Err ErrNotExist
  \/ EvalSymlinks fsys (Filepath.Dir item) = Ok (Filepath.Dir item) ->
  evalDstDir fsys scope item = Proceed (Filepath.Dir item).
Proof.
  intros [Hl|He].
  - apply evalDstDir_missing. exact Hl.
  - unfold evalDstDir. rewrite He, String.eqb_refl. simpl.
    destruct (match Lstat fsys (Filepath.Dir item) with
              | Ok _ => true
              | Err err => negb (IsNotExist err)
              end); reflexivity.
Qed.

Lemma Dir_IsAbs (item : string) :
  Filepath.IsAbs item = true -> Filepath.IsAbs (Filepath.Dir item) = true.
Proof.
  intros Habs. unfold Filepath.Dir. apply IsAbs_Clean.
  destruct item as [|c rest]; [discriminate Habs|].
  rewrite IsAbs_cons in Habs.
  change (Filepath.uptoLastSep (String c rest))
    with (if Filepath.hasSep (String c rest)
          then String c (Filepath.uptoLastSep rest) else EmptyString).
  simpl Filepath.hasSep. rewrite Habs. simpl. rewrite IsAbs_cons. exact Habs.
Qed.

(** X4. Widening the scope never rejects more: if the scope [outer] is a
    string prefix of the scope [inner], every item allowed under [inner] is
    allowed under [outer]. *)
Theorem wider_scope_allows_more (outer inner item : string) (node : Node) :
  HasPrefix inner outer = true ->
  allowed (SymlinkScopeNodeFilter inner fsys item node) = true ->
  allowed (SymlinkScopeNodeFilter outer fsys item node) = true.
Proof.
  intros Hio. unfold SymlinkScopeNodeFilter.
  destruct (evalDstDir fsys inner item) as [log|dstdir] eqn:Hdir;
    [discriminate|].
  rewrite (evalDstDir_widen fsys inner outer item dstdir Hio Hdir).
  apply checkTarget_widen. exact Hio.
Qed.

(** X6. The restore filter emits no diagnostic record when it allows an
    item and at most one when it rejects it; a rejection without a record
    happens only where the parent directory, not reported missing by
    [Lstat], cannot be resolved. *)
Theorem restore_filter_records (scope item : string) (node : Node) :
  let r := SymlinkScopeNodeFilter scope fsys item node in
  (allowed r = true -> emitted r = [])
  /\ (List.length (emitted r) <= 1)%nat
  /\ (allowed r = false -> emitted r = [] ->
      Lstat fsys (Filepath.Dir item) <> Err ErrNotExist
      /\ exists err, EvalSymlinks fsys (Filepath.Dir item) = Err err).
Proof.
  cbv zeta. unfold SymlinkScopeNodeFilter.
  destruct (evalDstDir fsys scope item) as [log|dstdir] eqn:Hdir.
  - split; [discriminate|]. simpl.
    unfold evalDstDir in Hdir.
    destruct (Lstat fsys (Filepath.Dir item)) as [fi|e] eqn:Hl.
    + destruct (EvalSymlinks fsys (Filepath.Dir item)) as [ev|err] eqn:He.
      * destruct (negb (String.eqb ev (Filepath.Dir item)));
          [|discriminate Hdir].
        destruct (negb (HasPrefix ev scope) && negb (HasPrefix scope ev));
          [|discriminate Hdir].
        injection Hdir as <-. split; [simpl; lia|]. discriminate.
      * injection Hdir as <-. split; [simpl; lia|].
        intros _ _. split; [discriminate | eauto].
    + destruct (negb (IsNotExist e)) eqn:Hn; [|discriminate Hdir].
      destruct (EvalSymlinks fsys (Filepath.Dir item)) as [ev|err] eqn:He.
      * destruct (negb (String.eqb ev (Filepath.Dir item)));
          [|discriminate Hdir].
        destruct (negb (HasPrefix ev scope) && negb (HasPrefix scope ev));
          [|discriminate Hdir].
        injection Hdir as <-. split; [simpl; lia|]. discriminate.
      * injection Hdir as <-. split; [simpl; lia|].
        intros _ _. split; [|eauto].
        intros [= ->]. discriminate Hn.
  - pose proof (checkTarget_diagnostics scope dstdir item node) as Hck.
    destruct (allowed (checkTarget scope dstdir item node)) eqn:Ha.
    + apply length_zero_iff_nil in Hck. rewrite Hck.
      split; [reflexivity|]. split; [simpl; lia | discriminate].
    + split; [discriminate|]. split; [lia|].
      intros _ Hnil. rewrite Hnil in Hck. discriminate Hck.
Qed.

(** X9. For an absolute item path, every location the filter tests against
    the scope is absolute, [EvalSymlinks] returning absolute paths for
    absolute ones: the destination directory, the target of a symlink node
    (absolute or made absolute by joining), and the location of any other
    node. *)
Theorem tested_locations_are_absolute
    (scope item dstdir : string) (node : Node) :
  Filepath.IsAbs item = true ->
  (forall dir resolved, Filepath.IsAbs dir = true ->
     EvalSymlinks fsys dir = Ok resolved -> Filepath.IsAbs resolved = true) ->
  evalDstDir fsys scope item = Proceed dstdir ->
  Filepath.IsAbs dstdir = true
  /\ Filepath.IsAbs (symlinkTarget dstdir node) = true
  /\ Filepath.IsAbs (itemTarget dstdir item) = true.
Proof.
  intros Habs Hev Hdir.
  assert (Hd : Filepath.IsAbs dstdir = true).
  { destruct (evalDstDir_Proceed_inv scope item dstdir Hdir) as [->|He].
    - apply Dir_IsAbs, Habs.
    - exact (Hev _ _ (Dir_IsAbs item Habs) He). }
  split; [exact Hd|]. split.
  - unfold symlinkTarget.
    destruct (Filepath.IsAbs (Filepath.Clean (LinkTarget node))) eqn:Ht;
      [exact Ht|].
    change (Filepath.IsAbs
              (Filepath.Join [dstdir; Filepath.Clean (LinkTarget node)])
            = true).
    rewrite (Join2_abs _ _ Hd). apply IsAbs_Clean, IsAbs_app, Hd.
  - unfold itemTarget.
    rewrite (Join2_abs _ _ Hd). apply IsAbs_Clean, IsAbs_app, Hd.
Qed.

(** The location tested for a non-symlink item [/s1/.../sn/x] whose
    destination directory is its own parent: the item's path. *)
Lemma itemTarget_own_path (segs : list string) (x : string) :
  plainSegs segs = true -> plainElem x = true ->
  itemTarget (Filepath.Dir (render (segs ++ [x]))) (render (segs ++ [x]))
  = render (segs ++ [x]).
Proof.
  intros Hs Hx. unfold itemTarget.
  rewrite (Dir_render_snoc segs x Hs Hx), (Base_render_snoc segs x Hx).
  exact (Join_render_name segs x Hs Hx).
Qed.

(** X10. An item that is not a symlink, given by a path [/s1/.../sn/x] of
    ordinary segments whose parent directory is missing or resolves to
    itself, is tested at its own path: it is allowed exactly when its path
    and the scope are prefix-compatible. *)
Theorem nonsymlink_tested_at_own_path
    (scope : string) (segs : list string) (x : string) (node : Node) :
  plainSegs segs = true -> plainElem x = true ->
  Type_ node <> NodeTypeSymlink ->
  Lstat fsys (render segs) = Err ErrNotExist
  \/ EvalSymlinks fsys (render segs) = Ok (render segs) ->
  allowed (SymlinkScopeNodeFilter scope fsys (render (segs ++ [x])) node)
  = compatible (render (segs ++ [x])) scope.
Proof.
  intros Hs Hx Hty Hparent.
  unfold SymlinkScopeNodeFilter.
  rewrite <- (Dir_render_snoc segs x Hs Hx) in Hparent.
  rewrite (evalDstDir_unchanged scope _ Hparent), checkTarget_allowed.
  apply NodeType_eqb_neq in Hty. rewrite Hty.
  rewrite (itemTarget_own_path segs x Hs Hx). reflexivity.
Qed.

(** X17. The way down to the scope is open: a non-symlink item
    [/s1/.../sn/x] whose path is a string prefix of the scope (the scope
    directory itself, or a directory above it), and whose parent directory
    is missing or resolves to itself, is allowed without a diagnostic. *)
Theorem scope_and_above_are_allowed
    (scope : string) (segs : list string) (x : string) (node : Node) :
  plainSegs segs = true -> plainElem x = true ->
  Type_ node <> NodeTypeSymlink ->
  Lstat fsys (render segs) = Err ErrNotExist
  \/ EvalSymlinks fsys (render segs) = Ok (render segs) ->
  HasPrefix scope (render (segs ++ [x])) = true ->
  SymlinkScopeNodeFilter scope fsys (render (segs ++ [x])) node = (true, []).
Proof.
  intros Hs Hx Hty Hparent Hpre.
  unfold SymlinkScopeNodeFilter, checkTarget.
  rewrite <- (Dir_render_snoc segs x Hs Hx) in Hparent.
  rewrite (evalDstDir_unchanged scope _ Hparent). cbv zeta.
  apply NodeType_eqb_neq in Hty. rewrite Hty.
  rewrite (itemTarget_own_path segs x Hs Hx), Hpre, andb_false_r.
  reflexivity.
Qed.

Lemma Join_plain_relative (rel : list string) :
  plainSegs rel = true -> rel <> [] ->
  Filepath.IsAbs (Join rel "/") = false
  /\ Filepath.Clean (Join rel "/") = Join rel "/".
Proof.
  intros Hr Hne.
  assert (Hrel : Filepath.IsAbs (Join rel "/") = false).
  { destruct rel as [|e rel]; [congruence|].
    simpl in Hr. apply andb_true_iff in Hr as [He _].
    destruct (plainElem_inv e He) as (Hnonempty & _ & _ & Hsep).
    destruct e as [|c e]; [congruence|].
    simpl in Hsep. apply orb_false_iff in Hsep as [Hc _].
    destruct rel as [|y rel].
    - simpl. rewrite IsAbs_cons. exact Hc.
    - rewrite Join_cons2, append_cons, IsAbs_cons. exact Hc. }
  split; [exact Hrel|].
  rewrite (Clean_relative_tidy _ Hrel (tidy_Join rel Hr));
    rewrite (segments_Join rel Hr); [reflexivity | exact Hne].
Qed.

(** X11. A symlink node whose link target is a relative path of ordinary
    segments (no [.], no [..]) points below its destination directory; when
    that directory, a path of ordinary segments, starts with the scope, the
    node is allowed, without a diagnostic. *)
Theorem downward_relative_symlink_allowed
    (scope item : string) (segs rel : list string) (node : Node) :
  plainSegs segs = true -> plainSegs rel = true -> rel <> [] ->
  Type_ node = NodeTypeSymlink ->
  LinkTarget node = Join rel "/" ->
  evalDstDir fsys scope item = Proceed (render segs) ->
  HasPrefix (render segs) scope = true ->
  SymlinkScopeNodeFilter scope fsys item node = (true, []).
Proof.
  intros Hs Hr Hne Hty Hlt Hdir Hscope.
  destruct (Join_plain_relative rel Hr Hne) as [Hrel Hclean].
  assert (Htarget : symlinkTarget (render segs) node = render (segs ++ rel)).
  { unfold symlinkTarget. rewrite Hlt, Hclean, Hrel.
    exact (Join_render_rel segs rel Hs Hr). }
  assert (Hpre : HasPrefix (render (segs ++ rel)) scope = true).
  { apply (HasPrefix_trans _ (render segs)); [|exact Hscope].
    unfold render. rewrite HasPrefix_app_both. apply Join_app_prefix. }
  unfold SymlinkScopeNodeFilter, checkTarget. rewrite Hdir. cbv zeta.
  apply NodeType_eqb_eq in Hty. rewrite Hty, Htarget, Hpre. reflexivity.
Qed.

Lemma render_snoc_longer (segs : list string) (d : string) :
  (String.length (render segs) < String.length (render (segs ++ [d])))%nat
  \/ d = EmptyString.
Proof.
  destruct d as [|c d]; [right; reflexivity | left].
  rewrite render_snoc. destruct segs as [|e segs].
  - simpl. lia.
  - rewrite append_length. simpl. lia.
Qed.

(** X12. A symlink node with link target [..] points to the parent of its
    destination directory; when the scope is that directory or lies below
    it, the node is rejected. *)
Theorem dotdot_symlink_rejected
    (scope item : string) (segs : list string) (d : string) (node : Node) :
  plainSegs (segs ++ [d]) = true ->
  Type_ node = NodeTypeSymlink ->
  LinkTarget node = ".." ->
  evalDstDir fsys scope item = Proceed (render (segs ++ [d])) ->
  HasPrefix scope (render (segs ++ [d])) = true ->
  allowed (SymlinkScopeNodeFilter scope fsys item node) = false.
Proof.
  intros Hs Hty Hlt Hdir Hscope.
  unfold SymlinkScopeNodeFilter. rewrite Hdir, checkTarget_allowed.
  apply NodeType_eqb_eq in Hty. rewrite Hty.
  assert (Htarget : symlinkTarget (render (segs ++ [d])) node = render segs).
  { unfold symlinkTarget. rewrite Hlt.
    change (Filepath.Clean "..") with "..".
    exact (Join_render_dotdot segs d Hs). }
  rewrite Htarget.
  destruct (HasPrefix (render segs) scope) eqn:Hpre; [|reflexivity].
  apply HasPrefix_length in Hpre, Hscope.
  destruct (render_snoc_longer segs d) as [Hlt'| ->]; [lia|].
  exfalso. unfold plainSegs in Hs. rewrite forallb_app in Hs.
  apply andb_true_iff in Hs as [_ Hd]. discriminate Hd.
Qed.

(** X13. The scope is used as given: with the empty scope the filter
    rejects an item only where its parent directory, not reported missing by
    [Lstat], cannot be resolved. *)
Theorem empty_scope_allows_everything (item : string) (node : Node) :
  allowed (SymlinkScopeNodeFilter EmptyString fsys item node) = false
  <-> Lstat fsys (Filepath.Dir item) <> Err ErrNotExist
      /\ exists err, EvalSymlinks fsys (Filepath.Dir item) = Err err.
Proof.
  assert (Hck : forall dstdir,
             allowed (checkTarget EmptyString dstdir item node) = true).
  { intros dstdir. rewrite checkTarget_allowed. unfold compatible.
    rewrite !HasPrefix_nil. destruct (NodeType_eqb _ _); reflexivity. }
  unfold SymlinkScopeNodeFilter. split.
  - destruct (evalDstDir fsys EmptyString item) as [log|dstdir] eqn:Hdir;
      [|rewrite Hck; discriminate].
    intros _. revert Hdir. unfold evalDstDir.
    destruct (Lstat fsys (Filepath.Dir item)) as [fi|[]];
      simpl; try discriminate;
      (destruct (EvalSymlinks fsys (Filepath.Dir item)) as [ev|err];
       [ rewrite !HasPrefix_nil;
         destruct (negb (String.eqb ev (Filepath.Dir item))); discriminate
       | intros _; split; [discriminate | eauto] ]).
  - intros [Hgate [err He]].
    rewrite (evalDstDir_failed EmptyString fsys item err Hgate He).
    reflexivity.
Qed.

End RestoreScope.

(** ** The path joiner of the tests *)

Section TestJoiner.
Import GoStrings TestHelpers.

Lemma joinFn_loop (elem : list string) (res : string) :
  fold_left (fun res e => res +:+ ("/" +:+ FromSlash e)) elem res
  = res +:+ match elem with
            | [] => EmptyString
            | _ => "/" +:+ Join elem "/"
            end.
Proof.
  revert res. induction elem as [|e elem IH]; intros res.
  - symmetry. apply append_nil_r.
  - simpl fold_left. rewrite IH. unfold FromSlash.
    destruct elem as [|y elem].
    + rewrite append_nil_r. reflexivity.
    + rewrite Join_cons2, !append_assoc. reflexivity.
Qed.

(** X16. The joiner of the tests is [strings.Join] with the separator: the
    elements are concatenated with one separator between neighbours and
    nothing is cleaned, so [..] elements and relative first elements
    survive. *)
Theorem joinFn_is_strings_Join (elem : list string) :
  joinFn elem = Join elem "/".
Proof.
  unfold joinFn.
  change (String Filepath.Separator EmptyString) with "/".
  rewrite joinFn_loop.
  destruct elem as [|e elem]; [reflexivity|].
  change (EmptyString +:+ ("/" +:+ Join (e :: elem) "/"))
    with (String "/" (Join (e :: elem) "/")).
  unfold TrimPrefix.
  assert (H : HasPrefix (String "/" (Join (e :: elem) "/")) "/" = true)
    by (apply HasPrefix_cons; split; [reflexivity | apply HasPrefix_nil]).
  rewrite H. reflexivity.
Qed.

End TestJoiner.

(** ** The further properties at work *)

Section MoreScenarios.
Import GoStrings OS Debug Restic Hostinger Containment PathShape Fixtures.

(** X2 at work: the relative scope [foodir/] under [/tmp/t]. *)
Lemma stored_scope_is_absolute_witness :
  (forall wd, Ok "/tmp/t" = Ok wd -> Filepath.IsAbs wd = true)
  /\ RejectSymlinksOutsideScope (Ok "/tmp/t") "foodir/"
     = Ok (rejectFn "/tmp/t/foodir")
  /\ exists stored : string,
      rejectFn "/tmp/t/foodir" = rejectFn stored
      /\ Filepath.IsAbs stored = true
      /\ (Filepath.IsAbs "foodir/" = true -> stored = "foodir/").
Proof.
  assert (Hwd : forall wd, Ok "/tmp/t" = Ok wd -> Filepath.IsAbs wd = true)
    by (intros wd [= <-]; reflexivity).
  split; [exact Hwd|]. split; [reflexivity|].
  exact (stored_scope_is_absolute (Ok "/tmp/t") "foodir/"
           (rejectFn "/tmp/t/foodir") Hwd eq_refl).
Defined.

(** X3 at work: what [/tmp/t/foodir] includes, [/tmp/t] includes. *)
Lemma wider_scope_includes_more_witness :
  Filepath.IsAbs "/tmp/t" = true
  /\ HasPrefix "/tmp/t/foodir" "/tmp/t" = true
  /\ excluded (rejectFn "/tmp/t/foodir" backupFS "/tmp/t/123") = false
  /\ excluded (rejectFn "/tmp/t" backupFS "/tmp/t/123") = false.
Proof.
  split; [reflexivity|]. split; [reflexivity|]. split; [reflexivity|].
  exact (wider_scope_includes_more (Ok "/") "/tmp/t" "/tmp/t/foodir"
           (rejectFn "/tmp/t") (rejectFn "/tmp/t/foodir") backupFS "/tmp/t/123"
           eq_refl eq_refl eq_refl eq_refl eq_refl).
Defined.

(** X4 at work: what the scope [/restore/real] allows, [/restore] allows. *)
Lemma wider_scope_allows_more_witness :
  HasPrefix "/restore/real" "/restore" = true
  /\ allowed (SymlinkScopeNodeFilter "/restore/real" restoreFS
                "/restore/sub/lnk" (symlinkNode "../real/file")) = true
  /\ allowed (SymlinkScopeNodeFilter "/restore" restoreFS
                "/restore/sub/lnk" (symlinkNode "../real/file")) = true.
Proof.
  split; [reflexivity|]. split; [reflexivity|].
  exact (wider_scope_allows_more restoreFS "/restore" "/restore/real"
           "/restore/sub/lnk" (symlinkNode "../real/file") eq_refl eq_refl).
Defined.

(** X5 at work: the excluded symlink [1234] of the test suite. *)
Lemma backup_guard_one_record_per_exclusion_witness :
  RejectSymlinksOutsideScope (Ok "/") "/tmp/t/foodir"
  = Ok (rejectFn "/tmp/t/foodir")
  /\ excluded (rejectFn "/tmp/t/foodir" backupFS "/tmp/t/1234") = true
  /\ List.length (emitted (rejectFn "/tmp/t/foodir" backupFS "/tmp/t/1234"))
     = 1%nat.
Proof.
  split; [reflexivity|]. split; [reflexivity|].
  exact (backup_guard_one_record_per_exclusion (Ok "/") "/tmp/t/foodir"
           (rejectFn "/tmp/t/foodir") backupFS "/tmp/t/1234" eq_refl).
Defined.

(** X7 at work: the symlink [foodir/insidefoo] of the test suite. *)
Lemma inside_is_included_witness :
  canonical "/tmp/t/foodir" = true
  /\ canonical "/tmp/t/foodir/foosub/underfoo" = true
  /\ EvalSymlinks backupFS "/tmp/t/foodir/insidefoo"
     = Ok "/tmp/t/foodir/foosub/underfoo"
  /\ inside "/tmp/t/foodir" "/tmp/t/foodir/foosub/underfoo" = true
  /\ rejectFn "/tmp/t/foodir" backupFS "/tmp/t/foodir/insidefoo" = (false, []).
Proof.
  split; [reflexivity|]. split; [reflexivity|]. split; [reflexivity|].
  split; [reflexivity|].
  exact (inside_is_included (Ok "/") "/tmp/t/foodir" (rejectFn "/tmp/t/foodir")
           backupFS "/tmp/t/foodir/insidefoo" "/tmp/t/foodir/foosub/underfoo"
           eq_refl eq_refl eq_refl eq_refl eq_refl).
Defined.

(** X8 at work: with the scope written [/foodir/], the sibling
    [/foodir2/x] is excluded. *)
Lemma trailing_separator_scope_is_exact_witness :
  canonical "/foodir" = true
  /\ segments "/foodir" <> []
  /\ canonical "/foodir2/x" = true
  /\ EvalSymlinks siblingFS "/foodir/y" = Ok "/foodir2/x"
  /\ (excluded (rejectFn "/foodir/" siblingFS "/foodir/y") = false
      <-> strictlyInside "/foodir" "/foodir2/x" = true).
Proof.
  assert (Hne : segments "/foodir" <> []) by (vm_compute; discriminate).
  split; [reflexivity|]. split; [exact Hne|]. split; [reflexivity|].
  split; [reflexivity|].
  exact (trailing_separator_scope_is_exact (Ok "/") "/foodir"
           (rejectFn "/foodir/") siblingFS "/foodir/y" "/foodir2/x"
           eq_refl Hne eq_refl eq_refl eq_refl).
Defined.

(** X9 at work: a relative link restored into an empty target. *)
Lemma tested_locations_are_absolute_witness :
  Filepath.IsAbs "/tmp/env/restore0/testdata/symlink1" = true
  /\ (forall dir resolved, Filepath.IsAbs dir = true ->
        EvalSymlinks emptyFS dir = Ok resolved ->
        Filepath.IsAbs resolved = true)
  /\ evalDstDir emptyFS restoreScope "/tmp/env/restore0/testdata/symlink1"
     = Proceed "/tmp/env/restore0/testdata"
  /\ Filepath.IsAbs "/tmp/env/restore0/testdata" = true
  /\ Filepath.IsAbs (symlinkTarget "/tmp/env/restore0/testdata"
                       (symlinkNode "./..")) = true
  /\ Filepath.IsAbs (itemTarget "/tmp/env/restore0/testdata"
                       "/tmp/env/restore0/testdata/symlink1") = true.
Proof.
  assert (Hev : forall dir resolved, Filepath.IsAbs dir = true ->
            EvalSymlinks emptyFS dir = Ok resolved ->
            Filepath.IsAbs resolved = true)
    by (intros dir resolved _ H; discriminate H).
  split; [reflexivity|]. split; [exact Hev|]. split; [reflexivity|].
  exact (tested_locations_are_absolute emptyFS restoreScope
           "/tmp/env/restore0/testdata/symlink1" "/tmp/env/restore0/testdata"
           (symlinkNode "./..") eq_refl Hev eq_refl).
Defined.

(** X10 at work: the directory [subdir1], an ancestor of the scope. *)
Lemma nonsymlink_tested_at_own_path_witness :
  plainSegs ["tmp"; "env"; "restore0"; "testdata"] = true
  /\ plainElem "subdir1" = true
  /\ Type_ dirNode <> NodeTypeSymlink
  /\ Lstat emptyFS (render ["tmp"; "env"; "restore0"; "testdata"])
     = Err ErrNotExist
  /\ allowed (SymlinkScopeNodeFilter restoreScope emptyFS
                (render (["tmp"; "env"; "restore0"; "testdata"] ++ ["subdir1"]))
                dirNode)
     = compatible
         (render (["tmp"; "env"; "restore0"; "testdata"] ++ ["subdir1"]))
         restoreScope.
Proof.
  assert (Hty : Type_ dirNode <> NodeTypeSymlink) by (simpl; discriminate).
  split; [reflexivity|]. split; [reflexivity|]. split; [exact Hty|].
  split; [reflexivity|].
  exact (nonsymlink_tested_at_own_path emptyFS restoreScope
           ["tmp"; "env"; "restore0"; "testdata"] "subdir1" dirNode
           eq_refl eq_refl Hty (or_introl eq_refl)).
Defined.

(** X17 at work: the scope directory itself, restored into an empty
    target. *)
Lemma scope_and_above_are_allowed_witness :
  plainSegs ["tmp"; "env"; "restore0"; "testdata"; "subdir1"] = true
  /\ plainElem "subdir2" = true
  /\ Type_ dirNode <> NodeTypeSymlink
  /\ Lstat emptyFS (render ["tmp"; "env"; "restore0"; "testdata"; "subdir1"])
     = Err ErrNotExist
  /\ HasPrefix restoreScope
       (render (["tmp"; "env"; "restore0"; "testdata"; "subdir1"]
                  ++ ["subdir2"])) = true
  /\ SymlinkScopeNodeFilter restoreScope emptyFS
       (render (["tmp"; "env"; "restore0"; "testdata"; "subdir1"]
                  ++ ["subdir2"])) dirNode = (true, []).
Proof.
  assert (Hty : Type_ dirNode <> NodeTypeSymlink) by (simpl; discriminate).
  split; [reflexivity|]. split; [reflexivity|]. split; [exact Hty|].
  split; [reflexivity|]. split; [reflexivity|].
  exact (scope_and_above_are_allowed emptyFS restoreScope
           ["tmp"; "env"; "restore0"; "testdata"; "subdir1"] "subdir2" dirNode
           eq_refl eq_refl Hty (or_introl eq_refl) eq_refl).
Defined.

(** X11 at work: the link [a/b] below [/restore/sub], which resolves to
    [/restore/real]. *)
Lemma downward_relative_symlink_allowed_witness :
  plainSegs ["restore"; "real"] = true
  /\ plainSegs ["a"; "b"] = true
  /\ LinkTarget (symlinkNode "a/b") = Join ["a"; "b"] "/"
  /\ evalDstDir restoreFS "/restore" "/restore/sub/lnk"
     = Proceed (render ["restore"; "real"])
  /\ HasPrefix (render ["restore"; "real"]) "/restore" = true
  /\ SymlinkScopeNodeFilter "/restore" restoreFS "/restore/sub/lnk"
       (symlinkNode "a/b") = (true, []).
Proof.
  split; [reflexivity|]. split; [reflexivity|]. split; [reflexivity|].
  split; [reflexivity|]. split; [reflexivity|].
  exact (downward_relative_symlink_allowed restoreFS "/restore"
           "/restore/sub/lnk" ["restore"; "real"] ["a"; "b"] (symlinkNode "a/b")
           eq_refl eq_refl ltac:(discriminate) eq_refl eq_refl eq_refl eq_refl).
Defined.

(** X12 at work: a link to [..] directly inside the scope directory. *)
Lemma dotdot_symlink_rejected_witness :
  plainSegs (["restore"] ++ ["real"]) = true
  /\ evalDstDir emptyFS "/restore/real" "/restore/real/up"
     = Proceed (render (["restore"] ++ ["real"]))
  /\ HasPrefix "/restore/real" (render (["restore"] ++ ["real"])) = true
  /\ allowed (SymlinkScopeNodeFilter "/restore/real" emptyFS "/restore/real/up"
                (symlinkNode "..")) = false.
Proof.
  split; [reflexivity|]. split; [reflexivity|]. split; [reflexivity|].
  exact (dotdot_symlink_rejected emptyFS "/restore/real" "/restore/real/up"
           ["restore"] "real" (symlinkNode "..")
           eq_refl eq_refl eq_refl eq_refl eq_refl).
Defined.

(** X14 at work: [foodir/] and [foodir] under [/tmp/t]. *)
Lemma relative_scope_trailing_separator_witness :
  Filepath.IsAbs "foodir" = false
  /\ "foodir" <> EmptyString
  /\ RejectSymlinksOutsideScope (Ok "/tmp/t") ("foodir" +:+ "/")
     = RejectSymlinksOutsideScope (Ok "/tmp/t") "foodir".
Proof.
  assert (Hne : "foodir" <> EmptyString) by discriminate.
  split; [reflexivity|]. split; [exact Hne|].
  exact (relative_scope_trailing_separator (Ok "/tmp/t") "foodir" eq_refl Hne).
Defined.

(** X15 at work: the working directory [/tmp/t/]. *)
Lemma empty_scope_is_working_directory_witness :
  "/tmp/t/" <> EmptyString
  /\ RejectSymlinksOutsideScope (Ok "/tmp/t/") EmptyString
     = Ok (rejectFn "/tmp/t").
Proof.
  assert (Hne : "/tmp/t/" <> EmptyString) by discriminate.
  split; [exact Hne|].
  exact (empty_scope_is_working_directory "/tmp/t/" Hne).
Defined.

End MoreScenarios.
